(** * VisionController: hand-gesture classifier and acquisition lifecycle

    A shallow embedding of [src/components/VisionController.tsx].

    - JavaScript numbers are IEEE-754 binary64 values: the kernel's
      primitive [float], with [<?] and [=?] the IEEE comparisons
      (JavaScript's [<] and [===] on numbers).
    - An array read out of range yields [undefined]; reading a property of
      [undefined] throws a [TypeError].  Array reads are [nth_error] and
      the property reads live in the [Completion] monad.
    - The component is event driven.  Every [async] function is cut at its
      [await]s into the code that runs before the suspension and the
      continuations that run when the awaited promise settles; the
      suspended continuations are part of the component state. *)

From Stdlib Require Import Floats ZArith List Bool Lia String.
From Stdlib Require Import Sorted.
Import ListNotations.

Local Open Scope float_scope.

(* ================================================================== *)
(** * JavaScript values used by the component *)

(** A normal or an abrupt completion of a JavaScript evaluation. *)
Inductive Completion (A : Type) : Type :=
| Normal (a : A)
| Throw_TypeError.
Arguments Normal {A} a.
Arguments Throw_TypeError {A}.

Definition bindC {A B} (c : Completion A) (k : A -> Completion B)
  : Completion B :=
  match c with
  | Normal a => k a
  | Throw_TypeError => Throw_TypeError
  end.

Notation "'let*' x ':=' c 'in' k" := (bindC c (fun x => k))
  (at level 10, x name, c at level 100, k at level 200).

(** [Array.prototype.map] with a callback that may throw: the elements
    are visited left to right and the first throw aborts the map. *)
Fixpoint mapC {A B} (f : A -> Completion B) (l : list A)
  : Completion (list B) :=
  match l with
  | [] => Normal []
  | a :: l' =>
      let* b := f a in
      let* bs := mapC f l' in
      Normal (b :: bs)
  end.

(** Reading a property of a value that may be [undefined]. *)
Definition prop {A B} (v : option A) (field : A -> B) : Completion B :=
  match v with
  | Some a => Normal (field a)
  | None => Throw_TypeError
  end.

(** The number of elements of an array, as a JavaScript number. *)
Definition length_number {A} (l : list A) : float :=
  of_uint63 (Uint63.of_Z (Z.of_nat (List.length l))).

(** [Math.sqrt] and [Math.pow] are host functions whose results the
    language standard leaves implementation-approximated; the component
    is modelled over any implementation of them. *)
Class JsMath : Type := {
  Math_sqrt : float -> float;
  Math_pow : float -> float -> float
}.

(** The IEEE square root, and a power that is the exact product for the
    exponent 2 (the only exponent the component passes) and repeated
    multiplication for the other small exponents. *)
Definition ieee_pow (b e : float) : float :=
  if e =? 2 then b * b
  else if e =? 1 then b
  else if e =? 0 then 1
  else nan.

Definition ieee_math : JsMath :=
  {| Math_sqrt := PrimFloat.sqrt; Math_pow := ieee_pow |}.

(* ================================================================== *)
(** * Data model *)

(** A [NormalizedLandmark] of the detector. *)
Module Landmark.
Record t : Type := mk { x : float; y : float; z : float }.
End Landmark.

(** The [landmarks] field of a [HandLandmarkerResult]: one array of
    landmarks per detected hand. *)
Record HandLandmarkerResult : Type := {
  landmarks : list (list Landmark.t)
}.

(** Modelled from the spec: the enum [HandGesture] of [../types], which
    the component imports ("gesture: enum{NONE, OPEN_PALM,
    CLOSED_FIST}"). *)
Inductive HandGesture : Type := NONE | OPEN_PALM | CLOSED_FIST.

Module Rotation.
Record t : Type := mk { x : float; y : float }.
End Rotation.

(** Modelled from the spec: the interface [HandState] of [../types],
    with the four fields the component writes. *)
Record HandState : Type := {
  gesture : HandGesture;
  rotation : Rotation.t;
  pinchDistance : float;
  isPresent : bool
}.

(* ================================================================== *)
(** * The per-frame classifier: [processLandmarks] *)

Section Classifier.
Context {M : JsMath}.

(** [tips.map(tip => Math.sqrt(...))]: the callback of the second map,
    for one entry of [tips]. *)
Definition tip_distance (wrist : option Landmark.t)
           (tip : option Landmark.t) : Completion float :=
  let* tx := prop tip Landmark.x in
  let* wx := prop wrist Landmark.x in
  let* ty := prop tip Landmark.y in
  let* wy := prop wrist Landmark.y in
  let* tz := prop tip Landmark.z in
  let* wz := prop wrist Landmark.z in
  Normal (Math_sqrt (Math_pow (tx - wx) 2
                     + Math_pow (ty - wy) 2
                     + Math_pow (tz - wz) 2)).

(** The argument that [processLandmarks] passes to [onUpdate], or the
    exception it throws before reaching the call. *)
Definition processLandmarks (result : HandLandmarkerResult)
  : Completion HandState :=
  match landmarks result with
  | landmarks0 :: _ =>
      let wrist := nth_error landmarks0 0 in
      let tips := map (fun i => nth_error landmarks0 i) [8; 12; 16; 20]%nat in
      let* dists := mapC (tip_distance wrist) tips in
      let avgDist := fold_left (fun a b => a + b) dists 0
                     / length_number dists in
      let thumbTip := nth_error landmarks0 4 in
      let indexTip := nth_error landmarks0 8 in
      let* ux := prop thumbTip Landmark.x in
      let* ix := prop indexTip Landmark.x in
      let* uy := prop thumbTip Landmark.y in
      let* iy := prop indexTip Landmark.y in
      let pinchDist := Math_sqrt (Math_pow (ux - ix) 2
                                  + Math_pow (uy - iy) 2) in
      let gesture := if avgDist <? 0.25 then CLOSED_FIST else OPEN_PALM in
      let* wx := prop wrist Landmark.x in
      let rotX := (wx - 0.5) * 4 in
      let* wy := prop wrist Landmark.y in
      let rotY := (wy - 0.5) * 2 in
      Normal {| gesture := gesture;
                rotation := Rotation.mk rotX rotY;
                pinchDistance := pinchDist;
                isPresent := true |}
  | [] =>
      Normal {| gesture := NONE;
                rotation := Rotation.mk 0 0;
                pinchDistance := 1;
                isPresent := false |}
  end.

(** The 3D Euclidean distance between two landmarks, as the
    specification words it. *)
Definition euclidean3 (a b : Landmark.t) : float :=
  Math_sqrt (Math_pow (Landmark.x a - Landmark.x b) 2
             + Math_pow (Landmark.y a - Landmark.y b) 2
             + Math_pow (Landmark.z a - Landmark.z b) 2).

(** The 2D Euclidean distance (x and y only). *)
Definition euclidean2 (a b : Landmark.t) : float :=
  Math_sqrt (Math_pow (Landmark.x a - Landmark.x b) 2
             + Math_pow (Landmark.y a - Landmark.y b) 2).

(** The arithmetic mean of four numbers, summed from zero in order. *)
Definition average4 (a b c d : float) : float :=
  (0 + a + b + c + d) / 4.

End Classifier.

(** The sentinel signal of a frame without a hand. *)
Definition absent_signal : HandState :=
  {| gesture := NONE;
     rotation := Rotation.mk 0 0;
     pinchDistance := 1;
     isPresent := false |}.

(** The landmark at index [i], with a default that is never read when
    the index is in range. *)
Definition landmark_at (l : list Landmark.t) (i : nat) : Landmark.t :=
  nth i l (Landmark.mk 0 0 0).


(* ================================================================== *)
(** * The component: refs, UI state, suspended continuations *)

Local Open Scope string_scope.

(** Opaque browser objects, named by a number. *)
Definition HandLandmarker : Type := nat.
Definition MediaStreamTrack : Type := nat.

Record MediaStream : Type := {
  getTracks : list MediaStreamTrack
}.

(** A [File] of the file picker, by its name, and the object URL the
    browser makes for it. *)
Definition File : Type := string.
Definition createObjectURL (file : File) : string := "blob:" ++ file.

Definition WASM_URL : string :=
  "https://cdn.jsdelivr.net/npm/@mediapipe/tasks-vision@0.10.3/wasm".
Definition MODEL_URL_GOOGLE : string :=
  "https://storage.googleapis.com/mediapipe-models/hand_landmarker/hand_landmarker/float16/1/hand_landmarker.task".

(** The [<video>] element behind [videoRef]: the attached stream and the
    number of [loadeddata] listeners added to it (every listener is the
    same closure). *)
Record HTMLVideoElement : Type := {
  srcObject : option MediaStream;
  loadeddata_listeners : nat
}.

(** An [async] function suspended at one of its [await]s. *)
Inductive Suspended : Type :=
| initVision_await_wasm
| initVision_await_model (timeoutId : nat)
| handleFileUpload_await_wasm (url : string)
| handleFileUpload_await_model (url : string)
| startCamera_await_getUserMedia.

Definition Suspended_eqb (a b : Suspended) : bool :=
  match a, b with
  | initVision_await_wasm, initVision_await_wasm => true
  | initVision_await_model i, initVision_await_model j => Nat.eqb i j
  | handleFileUpload_await_wasm u, handleFileUpload_await_wasm v =>
      String.eqb u v
  | handleFileUpload_await_model u, handleFileUpload_await_model v =>
      String.eqb u v
  | startCamera_await_getUserMedia, startCamera_await_getUserMedia => true
  | _, _ => false
  end.

(** The calls the component makes on its collaborators, in order. *)
Inductive Effect : Type :=
| forVisionTasks (url : string)
| createFromOptions (modelAssetPath delegate runningMode : string)
                    (numHands : Z)
| getUserMedia (width height : Z) (facingMode : string)
| detectForVideo (landmarker : HandLandmarker)
                 (currentTime startTimeMs : float)
| onUpdate (state : HandState).

Record Component : Type := {
  (* the environment *)
  navigator_mediaDevices : bool;
  (* refs *)
  videoRef : option HTMLVideoElement;
  lastVideoTime : float;
  requestRef : nat;
  landmarkerRef : option HandLandmarker;
  (* UI state *)
  isStarted : bool;
  status : string;
  errorMessage : string;
  showManualUpload : bool;
  (* the event loop: suspended functions, armed timers (id, delay in
     ms), requested animation frames *)
  pending : list Suspended;
  timers : list (nat * Z);
  nextTimerId : nat;
  frames : list nat;
  nextFrameId : nat;
  (* camera tracks whose [stop()] has run *)
  endedTracks : list MediaStreamTrack;
  (* the calls made so far *)
  log : list Effect
}.

(** The component as mounted, before any interaction. *)
Definition mounted (mediaDevices : bool) : Component :=
  {| navigator_mediaDevices := mediaDevices;
     videoRef := Some {| srcObject := None; loadeddata_listeners := 0 |};
     lastVideoTime := -1;
     requestRef := 0;
     landmarkerRef := None;
     isStarted := false;
     status := EmptyString;
     errorMessage := EmptyString;
     showManualUpload := false;
     pending := [];
     timers := [];
     nextTimerId := 1;
     frames := [];
     nextFrameId := 1;
     endedTracks := [];
     log := [] |}.

(** ** Field updates *)

Definition set_videoRef (v : option HTMLVideoElement) (s : Component) :=
  {| navigator_mediaDevices := navigator_mediaDevices s;
     videoRef := v; lastVideoTime := lastVideoTime s;
     requestRef := requestRef s; landmarkerRef := landmarkerRef s;
     isStarted := isStarted s; status := status s;
     errorMessage := errorMessage s;
     showManualUpload := showManualUpload s; pending := pending s;
     timers := timers s; nextTimerId := nextTimerId s;
     frames := frames s; nextFrameId := nextFrameId s;
     endedTracks := endedTracks s; log := log s |}.

Definition set_lastVideoTime (t : float) (s : Component) :=
  {| navigator_mediaDevices := navigator_mediaDevices s;
     videoRef := videoRef s; lastVideoTime := t;
     requestRef := requestRef s; landmarkerRef := landmarkerRef s;
     isStarted := isStarted s; status := status s;
     errorMessage := errorMessage s;
     showManualUpload := showManualUpload s; pending := pending s;
     timers := timers s; nextTimerId := nextTimerId s;
     frames := frames s; nextFrameId := nextFrameId s;
     endedTracks := endedTracks s; log := log s |}.

Definition set_requestRef (id : nat) (s : Component) :=
  {| navigator_mediaDevices := navigator_mediaDevices s;
     videoRef := videoRef s; lastVideoTime := lastVideoTime s;
     requestRef := id; landmarkerRef := landmarkerRef s;
     isStarted := isStarted s; status := status s;
     errorMessage := errorMessage s;
     showManualUpload := showManualUpload s; pending := pending s;
     timers := timers s; nextTimerId := nextTimerId s;
     frames := frames s; nextFrameId := nextFrameId s;
     endedTracks := endedTracks s; log := log s |}.

Definition set_landmarkerRef (h : option HandLandmarker) (s : Component) :=
  {| navigator_mediaDevices := navigator_mediaDevices s;
     videoRef := videoRef s; lastVideoTime := lastVideoTime s;
     requestRef := requestRef s; landmarkerRef := h;
     isStarted := isStarted s; status := status s;
     errorMessage := errorMessage s;
     showManualUpload := showManualUpload s; pending := pending s;
     timers := timers s; nextTimerId := nextTimerId s;
     frames := frames s; nextFrameId := nextFrameId s;
     endedTracks := endedTracks s; log := log s |}.

Definition setIsStarted (b : bool) (s : Component) :=
  {| navigator_mediaDevices := navigator_mediaDevices s;
     videoRef := videoRef s; lastVideoTime := lastVideoTime s;
     requestRef := requestRef s; landmarkerRef := landmarkerRef s;
     isStarted := b; status := status s;
     errorMessage := errorMessage s;
     showManualUpload := showManualUpload s; pending := pending s;
     timers := timers s; nextTimerId := nextTimerId s;
     frames := frames s; nextFrameId := nextFrameId s;
     endedTracks := endedTracks s; log := log s |}.

Definition setStatus (v : string) (s : Component) :=
  {| navigator_mediaDevices := navigator_mediaDevices s;
     videoRef := videoRef s; lastVideoTime := lastVideoTime s;
     requestRef := requestRef s; landmarkerRef := landmarkerRef s;
     isStarted := isStarted s; status := v;
     errorMessage := errorMessage s;
     showManualUpload := showManualUpload s; pending := pending s;
     timers := timers s; nextTimerId := nextTimerId s;
     frames := frames s; nextFrameId := nextFrameId s;
     endedTracks := endedTracks s; log := log s |}.

Definition setErrorMessage (v : string) (s : Component) :=
  {| navigator_mediaDevices := navigator_mediaDevices s;
     videoRef := videoRef s; lastVideoTime := lastVideoTime s;
     requestRef := requestRef s; landmarkerRef := landmarkerRef s;
     isStarted := isStarted s; status := status s;
     errorMessage := v;
     showManualUpload := showManualUpload s; pending := pending s;
     timers := timers s; nextTimerId := nextTimerId s;
     frames := frames s; nextFrameId := nextFrameId s;
     endedTracks := endedTracks s; log := log s |}.

Definition setShowManualUpload (b : bool) (s : Component) :=
  {| navigator_mediaDevices := navigator_mediaDevices s;
     videoRef := videoRef s; lastVideoTime := lastVideoTime s;
     requestRef := requestRef s; landmarkerRef := landmarkerRef s;
     isStarted := isStarted s; status := status s;
     errorMessage := errorMessage s;
     showManualUpload := b; pending := pending s;
     timers := timers s; nextTimerId := nextTimerId s;
     frames := frames s; nextFrameId := nextFrameId s;
     endedTracks := endedTracks s; log := log s |}.

Definition set_pending (p : list Suspended) (s : Component) :=
  {| navigator_mediaDevices := navigator_mediaDevices s;
     videoRef := videoRef s; lastVideoTime := lastVideoTime s;
     requestRef := requestRef s; landmarkerRef := landmarkerRef s;
     isStarted := isStarted s; status := status s;
     errorMessage := errorMessage s;
     showManualUpload := showManualUpload s; pending := p;
     timers := timers s; nextTimerId := nextTimerId s;
     frames := frames s; nextFrameId := nextFrameId s;
     endedTracks := endedTracks s; log := log s |}.

Definition set_timers (t : list (nat * Z)) (next : nat) (s : Component) :=
  {| navigator_mediaDevices := navigator_mediaDevices s;
     videoRef := videoRef s; lastVideoTime := lastVideoTime s;
     requestRef := requestRef s; landmarkerRef := landmarkerRef s;
     isStarted := isStarted s; status := status s;
     errorMessage := errorMessage s;
     showManualUpload := showManualUpload s; pending := pending s;
     timers := t; nextTimerId := next;
     frames := frames s; nextFrameId := nextFrameId s;
     endedTracks := endedTracks s; log := log s |}.

Definition set_frames (f : list nat) (next : nat) (s : Component) :=
  {| navigator_mediaDevices := navigator_mediaDevices s;
     videoRef := videoRef s; lastVideoTime := lastVideoTime s;
     requestRef := requestRef s; landmarkerRef := landmarkerRef s;
     isStarted := isStarted s; status := status s;
     errorMessage := errorMessage s;
     showManualUpload := showManualUpload s; pending := pending s;
     timers := timers s; nextTimerId := nextTimerId s;
     frames := f; nextFrameId := next;
     endedTracks := endedTracks s; log := log s |}.

Definition set_endedTracks (e : list MediaStreamTrack) (s : Component) :=
  {| navigator_mediaDevices := navigator_mediaDevices s;
     videoRef := videoRef s; lastVideoTime := lastVideoTime s;
     requestRef := requestRef s; landmarkerRef := landmarkerRef s;
     isStarted := isStarted s; status := status s;
     errorMessage := errorMessage s;
     showManualUpload := showManualUpload s; pending := pending s;
     timers := timers s; nextTimerId := nextTimerId s;
     frames := frames s; nextFrameId := nextFrameId s;
     endedTracks := e; log := log s |}.

Definition call (e : Effect) (s : Component) :=
  {| navigator_mediaDevices := navigator_mediaDevices s;
     videoRef := videoRef s; lastVideoTime := lastVideoTime s;
     requestRef := requestRef s; landmarkerRef := landmarkerRef s;
     isStarted := isStarted s; status := status s;
     errorMessage := errorMessage s;
     showManualUpload := showManualUpload s; pending := pending s;
     timers := timers s; nextTimerId := nextTimerId s;
     frames := frames s; nextFrameId := nextFrameId s;
     endedTracks := endedTracks s; log := log s ++ [e] |}.

(** ** The event loop's primitives *)

(** Suspend the running [async] function at an [await]. *)
Definition await (k : Suspended) (s : Component) : Component :=
  set_pending (pending s ++ [k]) s.

Fixpoint remove_first (k : Suspended) (l : list Suspended)
  : list Suspended :=
  match l with
  | [] => []
  | k' :: l' => if Suspended_eqb k k' then l' else k' :: remove_first k l'
  end.

(** Take a suspended function off the event loop to run its
    continuation; [None] when no such function is suspended. *)
Definition resume (k : Suspended) (s : Component) : option Component :=
  if existsb (Suspended_eqb k) (pending s)
  then Some (set_pending (remove_first k (pending s)) s)
  else None.

(** [setTimeout(callback, delay)]: arms a timer and returns its id.  The
    only callback the component arms is the one of [initVision]. *)
Definition setTimeout (delay : Z) (s : Component) : nat * Component :=
  let id := nextTimerId s in
  (id, set_timers (timers s ++ [(id, delay)]) (S id) s).

Definition timer_armed (id : nat) (s : Component) : bool :=
  existsb (fun t => Nat.eqb (fst t) id) (timers s).

Definition clearTimeout (id : nat) (s : Component) : Component :=
  set_timers (filter (fun t => negb (Nat.eqb (fst t) id)) (timers s))
             (nextTimerId s) s.

(** [requestAnimationFrame(predictWebcam)]: returns the request id. *)
Definition requestAnimationFrame (s : Component) : nat * Component :=
  let id := nextFrameId s in
  (id, set_frames (frames s ++ [id]) (S id) s).

Definition frame_requested (id : nat) (s : Component) : bool :=
  existsb (Nat.eqb id) (frames s).

Definition cancelAnimationFrame (id : nat) (s : Component) : Component :=
  set_frames (filter (fun f => negb (Nat.eqb f id)) (frames s))
             (nextFrameId s) s.

(** [track.stop()]: ends a live track and does nothing on an ended one. *)
Definition stop (t : MediaStreamTrack) (s : Component) : Component :=
  if existsb (Nat.eqb t) (endedTracks s) then s
  else set_endedTracks (endedTracks s ++ [t]) s.

(* ================================================================== *)
(** * The component's functions *)

(** What one run of [predictWebcam] observes: the video's
    [currentTime], [performance.now()], and the result the detector
    returns if it is called. *)
Record Tick : Type := {
  video_currentTime : float;
  performance_now : float;
  detection : HandLandmarkerResult
}.

Section Handlers.
Context {M : JsMath}.

(** ** [startCamera] *)

Definition startCamera (s : Component) : Component :=
  let s := setStatus "requesting_camera" s in
  if negb (navigator_mediaDevices s) then
    let s := setStatus "error" s in
    setErrorMessage "浏览器不支持摄像头访问 (需要 HTTPS)" s
  else
    let s := call (getUserMedia 640 480 "user") s in
    await startCamera_await_getUserMedia s.

(** After [await getUserMedia(...)] resolves: attach the stream and add
    the [loadeddata] listener, when the video element is there. *)
Definition startCamera_resolved (stream : MediaStream) (s : Component)
  : Component :=
  match videoRef s with
  | Some video =>
      set_videoRef
        (Some {| srcObject := Some stream;
                 loadeddata_listeners := S (loadeddata_listeners video) |})
        s
  | None => s
  end.

(** The [catch] of [startCamera]. *)
Definition startCamera_rejected (s : Component) : Component :=
  let s := setStatus "error" s in
  setErrorMessage "摄像头权限被拒绝" s.

(** ** [predictWebcam] *)

Definition reschedule (s : Component) : Component :=
  let (id, s) := requestAnimationFrame s in
  set_requestRef id s.

(** One run of [predictWebcam].  When [processLandmarks] throws, the
    exception leaves [predictWebcam] before the next frame is requested;
    the writes made before the throw stay. *)
Definition predictWebcam (tk : Tick) (s : Component) : Component :=
  match landmarkerRef s, videoRef s with
  | Some landmarker, Some _ =>
      if negb (lastVideoTime s =? video_currentTime tk)%float then
        let s := set_lastVideoTime (video_currentTime tk) s in
        let startTimeMs := performance_now tk in
        let s := call (detectForVideo landmarker (video_currentTime tk)
                                      startTimeMs) s in
        match processLandmarks (detection tk) with
        | Normal state =>
            let s := call (onUpdate state) s in
            reschedule s
        | Throw_TypeError => s
        end
      else reschedule s
  | _, _ => s
  end.

(** The [loadeddata] listener added by [startCamera]. *)
Definition on_loadeddata (tk : Tick) (s : Component) : Component :=
  let s := setStatus "ready" s in
  predictWebcam tk s.

(** ** [initVision] and [startExperience] *)

Definition initVision (s : Component) : Component :=
  let s := setStatus "loading_wasm" s in
  let s := call (forVisionTasks WASM_URL) s in
  await initVision_await_wasm s.

(** After the WASM fileset resolves: arm the timeout, start creating
    the landmarker. *)
Definition initVision_wasm_resolved (s : Component) : Component :=
  let s := setStatus "loading_model" s in
  let (timeoutId, s) := setTimeout 3000 s in
  let s := call (createFromOptions MODEL_URL_GOOGLE "GPU" "VIDEO" 1) s in
  await (initVision_await_model timeoutId) s.

(** The callback of the timeout. *)
Definition timeout_callback (s : Component) : Component :=
  match landmarkerRef s with
  | None => setShowManualUpload true s
  | Some _ => s
  end.

Definition initVision_model_resolved (timeoutId : nat)
           (landmarker : HandLandmarker) (s : Component) : Component :=
  let s := clearTimeout timeoutId s in
  let s := set_landmarkerRef (Some landmarker) s in
  startCamera s.

(** The inner [catch (modelErr)]. *)
Definition initVision_model_rejected (timeoutId : nat) (s : Component)
  : Component :=
  let s := clearTimeout timeoutId s in
  let s := setShowManualUpload true s in
  let s := setStatus "waiting_for_file" s in
  setErrorMessage "无法连接 Google 服务器下载模型" s.

(** The outer [catch (err)]: [err.message || ...]. *)
Definition initVision_wasm_rejected (message : string) (s : Component)
  : Component :=
  let s := setStatus "error" s in
  setErrorMessage
    (match message with EmptyString => "初始化失败" | _ => message end) s.

Definition startExperience (s : Component) : Component :=
  let s := setIsStarted true s in
  let s := setStatus "initializing" s in
  initVision s.

(** ** [handleFileUpload] *)

Definition handleFileUpload (files : option (list File)) (s : Component)
  : Component :=
  match files with
  | None | Some [] => s
  | Some (file :: _) =>
      let url := createObjectURL file in
      let s := setStatus "loading_model_manual" s in
      let s := call (forVisionTasks WASM_URL) s in
      await (handleFileUpload_await_wasm url) s
  end.

Definition handleFileUpload_wasm_resolved (url : string) (s : Component)
  : Component :=
  let s := call (createFromOptions url "GPU" "VIDEO" 1) s in
  await (handleFileUpload_await_model url) s.

Definition handleFileUpload_model_resolved
           (landmarker : HandLandmarker) (s : Component) : Component :=
  let s := set_landmarkerRef (Some landmarker) s in
  let s := setShowManualUpload false s in
  startCamera s.

(** The [catch (err)] of [handleFileUpload], for either [await]. *)
Definition handleFileUpload_rejected (message : string) (s : Component)
  : Component :=
  let s := setStatus "error" s in
  setErrorMessage ("文件无效: " ++ message) s.

(** ** The effect cleanup *)

(** [if (videoRef.current && videoRef.current.srcObject)]. *)
Definition has_stream (s : Component) : bool :=
  match videoRef s with
  | Some video =>
      match srcObject video with Some _ => true | None => false end
  | None => false
  end.

Definition current_stream (s : Component) : option MediaStream :=
  match videoRef s with
  | Some video => srcObject video
  | None => None
  end.

(** The function returned by the effect: cancel the requested frame,
    stop the tracks of the attached stream.  [getTracks] is read off the
    stream, which throws when there is none. *)
Definition cleanup (s : Component) : Completion Component :=
  let s := cancelAnimationFrame (requestRef s) s in
  if has_stream s then
    let* tracks := prop (current_stream s) getTracks in
    Normal (fold_left (fun s t => stop t s) tracks s)
  else Normal s.

(** ** What is rendered *)

Definition overlay_shown (s : Component) : bool :=
  negb (isStarted s) || negb (status s =? "ready").

Definition start_button_shown (s : Component) : bool :=
  overlay_shown s && negb (isStarted s).

(** The manual-upload panel with its file input. *)
Definition manual_upload_shown (s : Component) : bool :=
  overlay_shown s
  && (isStarted s && showManualUpload s && negb (status s =? "ready")).

(** ** The event loop *)

(** What can happen to the mounted component: the two user actions, the
    settling of each awaited promise, the timeout, the video's
    [loadeddata], an animation frame, and the unmount. *)
Inductive Event : Type :=
| click_start
| wasm_resolved
| wasm_rejected (message : string)
| timeout_fired (timeoutId : nat)
| model_resolved (timeoutId : nat) (landmarker : HandLandmarker)
| model_rejected (timeoutId : nat)
| file_change (files : option (list File))
| manual_wasm_resolved (url : string)
| manual_wasm_rejected (url : string) (message : string)
| manual_model_resolved (url : string) (landmarker : HandLandmarker)
| manual_model_rejected (url : string) (message : string)
| camera_granted (stream : MediaStream)
| camera_rejected
| loadeddata (tk : Tick)
| animation_frame (id : nat) (tk : Tick)
| unmount.

Definition option_map_state (f : Component -> Component)
           (o : option Component) : option Component :=
  match o with Some s => Some (f s) | None => None end.

(** One turn of the event loop; [None] when the event cannot happen in
    the state (its control is not rendered, nothing awaits it). *)
Definition step (s : Component) (e : Event) : option Component :=
  match e with
  | click_start =>
      if start_button_shown s then Some (startExperience s) else None
  | wasm_resolved =>
      option_map_state initVision_wasm_resolved
                       (resume initVision_await_wasm s)
  | wasm_rejected message =>
      option_map_state (initVision_wasm_rejected message)
                       (resume initVision_await_wasm s)
  | timeout_fired id =>
      if timer_armed id s
      then Some (timeout_callback (clearTimeout id s))
      else None
  | model_resolved id landmarker =>
      option_map_state (initVision_model_resolved id landmarker)
                       (resume (initVision_await_model id) s)
  | model_rejected id =>
      option_map_state (initVision_model_rejected id)
                       (resume (initVision_await_model id) s)
  | file_change files =>
      if manual_upload_shown s then Some (handleFileUpload files s)
      else None
  | manual_wasm_resolved url =>
      option_map_state (handleFileUpload_wasm_resolved url)
                       (resume (handleFileUpload_await_wasm url) s)
  | manual_wasm_rejected url message =>
      option_map_state (handleFileUpload_rejected message)
                       (resume (handleFileUpload_await_wasm url) s)
  | manual_model_resolved url landmarker =>
      option_map_state (handleFileUpload_model_resolved landmarker)
                       (resume (handleFileUpload_await_model url) s)
  | manual_model_rejected url message =>
      option_map_state (handleFileUpload_rejected message)
                       (resume (handleFileUpload_await_model url) s)
  | camera_granted stream =>
      option_map_state (startCamera_resolved stream)
                       (resume startCamera_await_getUserMedia s)
  | camera_rejected =>
      option_map_state startCamera_rejected
                       (resume startCamera_await_getUserMedia s)
  | loadeddata tk =>
      match videoRef s with
      | Some video =>
          if has_stream s
          then Some (Nat.iter (loadeddata_listeners video)
                              (on_loadeddata tk) s)
          else None
      | None => None
      end
  | animation_frame id tk =>
      if frame_requested id s
      then Some (predictWebcam tk
                   (set_frames (filter (fun f => negb (Nat.eqb f id))
                                       (frames s))
                               (nextFrameId s) s))
      else None
  | unmount =>
      (* React detaches the ref of the removed <video> element before
         it runs the cleanup of the effect *)
      match cleanup (set_videoRef None s) with
      | Normal s' => Some s'
      | Throw_TypeError => None
      end
  end.

Fixpoint run (s : Component) (es : list Event) : option Component :=
  match es with
  | [] => Some s
  | e :: es' =>
      match step s e with
      | Some s' => run s' es'
      | None => None
      end
  end.

(** The frame loop driven by the display: every animation frame runs
    the request that [requestRef] holds. *)
Fixpoint drive (s : Component) (ticks : list Tick) : option Component :=
  match ticks with
  | [] => Some s
  | tk :: ticks' =>
      match step s (animation_frame (requestRef s) tk) with
      | Some s' => drive s' ticks'
      | None => None
      end
  end.

(** The frame loop from its start: the [loadeddata] listener makes the
    first run of [predictWebcam], the animation frames the later ones. *)
Definition frame_loop (s : Component) (first : Tick) (ticks : list Tick)
  : option Component :=
  match step s (loadeddata first) with
  | Some s' => drive s' ticks
  | None => None
  end.

End Handlers.

(** ** Reading the log *)

(** The video timestamps the detector was called with, in order. *)
Fixpoint inferences (l : list Effect) : list float :=
  match l with
  | [] => []
  | detectForVideo _ t _ :: l' => t :: inferences l'
  | _ :: l' => inferences l'
  end.

(** The signals handed to [onUpdate], in order. *)
Fixpoint emitted (l : list Effect) : list HandState :=
  match l with
  | [] => []
  | onUpdate st :: l' => st :: emitted l'
  | _ :: l' => emitted l'
  end.

(** The landmarkers the detector calls were made on, in order. *)
Fixpoint detectors (l : list Effect) : list HandLandmarker :=
  match l with
  | [] => []
  | detectForVideo h _ _ :: l' => h :: detectors l'
  | _ :: l' => detectors l'
  end.

(** The number of camera requests made. *)
Fixpoint camera_requests (l : list Effect) : nat :=
  match l with
  | [] => 0
  | getUserMedia _ _ _ :: l' => S (camera_requests l')
  | _ :: l' => camera_requests l'
  end.

(** The model paths engine creation was started with, in order. *)
Fixpoint model_loads (l : list Effect) : list string :=
  match l with
  | [] => []
  | createFromOptions path _ _ _ :: l' => path :: model_loads l'
  | _ :: l' => model_loads l'
  end.

(** How many of the timestamps in [l] equal [t] (as [===] has it). *)
Definition times_inferred (t : float) (l : list float) : nat :=
  List.length (filter (fun u => (u =? t)%float) l).

(** ** Sample data *)

(** A hand whose twenty landmarks other than the wrist all sit at
    [tip]. *)
Definition sample_hand (wrist tip : Landmark.t) : list Landmark.t :=
  wrist :: repeat tip 20.

(** Wrist at the centre, every fingertip a quarter to its right: the
    average distance is exactly 0.25. *)
Definition boundary_hand : list Landmark.t :=
  sample_hand (Landmark.mk 0.5 0.5 0) (Landmark.mk 0.75 0.5 0).

Definition fist_hand : list Landmark.t :=
  sample_hand (Landmark.mk 0 0 0) (Landmark.mk 0.125 0 0).

Definition palm_hand : list Landmark.t :=
  sample_hand (Landmark.mk 1 1 0) (Landmark.mk 0.5 0.5 0).

(** ** The scheduler's view of a run of ticks *)

(** The timestamps, out of [ts] in order, that differ from the one
    recorded before them, starting from the recorded [last]. *)
Fixpoint changes (last : float) (ts : list float) : list float :=
  match ts with
  | [] => []
  | t :: ts' =>
      if negb (last =? t)%float then t :: changes t ts'
      else changes last ts'
  end.

(** A detector result that keeps the data model's invariant: every
    landmark set has 21 landmarks. *)
Definition well_formed (result : HandLandmarkerResult) : Prop :=
  Forall (fun l : list Landmark.t => List.length l = 21%nat)
         (landmarks result).

(** Timestamps that never decrease. *)
Definition non_decreasing (ts : list float) : Prop :=
  StronglySorted (fun a b => (a <=? b)%float = true) ts.

Definition sample_tick (t : float) : Tick :=
  {| video_currentTime := t;
     performance_now := 16;
     detection := {| landmarks := [] |} |}.

Definition sample_stream : MediaStream := {| getTracks := [1; 2]%nat |}.

(** The state the component reaches from its mounting, in an
    environment with a camera, over the events [es] (the mounted state
    itself when the events cannot happen in that order). *)
Definition reached (es : list Event) : Component :=
  match run (M := ieee_math) (mounted true) es with
  | Some s => s
  | None => mounted true
  end.

(** The automatic load in flight, the timeout armed. *)
Definition loading_model_state : Component :=
  reached [click_start; wasm_resolved].


(** The stream attached, [loadeddata] not yet fired. *)
Definition stream_attached_state : Component :=
  reached [click_start; wasm_resolved; model_resolved 1 7%nat;
           camera_granted sample_stream].

(** The frame loop running. *)
Definition streaming_state : Component :=
  reached [click_start; wasm_resolved; model_resolved 1 7%nat;
           camera_granted sample_stream; loadeddata (sample_tick 0);
           animation_frame 1%nat (sample_tick 0.5)].

(** Both loads in flight: the timeout has fired, a file was chosen,
    and neither engine creation has settled. *)
Definition both_loading_state : Component :=
  reached [click_start; wasm_resolved; timeout_fired 1;
           file_change (Some ["hand_landmarker.task"]);
           manual_wasm_resolved "blob:hand_landmarker.task"].

(** The manual load has won and the loop is running, while the
    automatic load is still in flight. *)
Definition manual_won_state : Component :=
  reached [click_start; wasm_resolved; timeout_fired 1;
           file_change (Some ["hand_landmarker.task"]);
           manual_wasm_resolved "blob:hand_landmarker.task";
           manual_model_resolved "blob:hand_landmarker.task" 5%nat;
           camera_granted sample_stream; loadeddata (sample_tick 0)].

(** The function a load-success event resumes, and the handle it
    brings. *)
Definition load_of (e : Event) : option (Suspended * HandLandmarker) :=
  match e with
  | model_resolved id h => Some (initVision_await_model id, h)
  | manual_model_resolved url h =>
      Some (handleFileUpload_await_model url, h)
  | _ => None
  end.

(** ** Predicates on states *)

(** A successful end of a model load, on either path. *)
Definition load_success (e : Event) : bool :=
  match e with
  | model_resolved _ _ | manual_model_resolved _ _ => true
  | _ => false
  end.

(** A state in which nothing can bring up the manual-upload panel: the
    panel is down, a landmarker is stored, and [initVision] is not
    suspended. *)
Definition upload_not_offered (s : Component) : Prop :=
  isStarted s = true
  /\ showManualUpload s = false
  /\ landmarkerRef s <> None
  /\ ~ In initVision_await_wasm (pending s)
  /\ (forall id, ~ In (initVision_await_model id) (pending s)).

Definition listeners (s : Component) : nat :=
  match videoRef s with
  | Some video => loadeddata_listeners video
  | None => 0
  end.

(** A started component with nothing suspended, no frame requested and
    no [loadeddata] listener. *)
Definition dormant (s : Component) : Prop :=
  isStarted s = true
  /\ pending s = []
  /\ frames s = []
  /\ listeners s = 0%nat.


(* ================================================================== *)
(** * More of the component: the panels of the overlay, sample data *)

(** The spinner with the loading text (panel 2 of the overlay). *)
Definition loading_shown (s : Component) : bool :=
  overlay_shown s
  && (isStarted s && negb (status s =? "ready")
      && negb (status s =? "error") && negb (showManualUpload s)).

(** The error panel (panel 4 of the overlay). *)
Definition error_shown (s : Component) : bool :=
  overlay_shown s && (status s =? "error").

(** The text under the spinner: one of three statuses has a text, any
    other status shows the spinner alone. *)
Definition loading_text (s : Component) : string :=
  if status s =? "loading_wasm" then "正在加载基础组件..."
  else if status s =? "loading_model" then "正在下载 AI 模型..."
  else if status s =? "requesting_camera" then "请允许摄像头权限..."
  else EmptyString.

(** The initial status and the arguments of the [setStatus] calls, but
    for "initializing", which [startExperience] sets and [initVision]
    overwrites in the same turn. *)
Definition rendered_statuses : list string :=
  [EmptyString; "loading_wasm"; "loading_model"; "waiting_for_file";
   "loading_model_manual"; "requesting_camera"; "ready"; "error"].

(** What a state that is rendered keeps: its status is a rendered one,
    not the initial one once started, and the two statuses of the manual
    path come with the upload panel switched on. *)
Definition status_invariant (s : Component) : Prop :=
  In (status s) rendered_statuses
  /\ (isStarted s = true -> status s <> EmptyString)
  /\ (status s = "waiting_for_file" \/ status s = "loading_model_manual" ->
      showManualUpload s = true).

(** The options every engine creation and every camera request of the
    component carry. *)
Definition fixed_options (e : Effect) : bool :=
  match e with
  | forVisionTasks url => url =? WASM_URL
  | createFromOptions _ delegate runningMode numHands =>
      (delegate =? "GPU") && (runningMode =? "VIDEO") && (numHands =? 1)%Z
  | getUserMedia width height facingMode =>
      (width =? 640)%Z && (height =? 480)%Z && (facingMode =? "user")
  | detectForVideo _ _ _ => true
  | onUpdate _ => true
  end.

(** The detector result an event carries is well formed. *)
Definition event_well_formed (e : Event) : Prop :=
  match e with
  | loadeddata tk | animation_frame _ tk => well_formed (detection tk)
  | _ => True
  end.

(** What the calls [l] added by one turn keep, when the turn leaves the
    landmarker [after] where [before] was: the fixed options, at most one
    signal per detector call (exactly one on a well-formed result), and
    no camera request or detector call while no landmarker is stored; a
    stored landmarker is never removed. *)
Definition log_growth (wf : Prop) (before after : option HandLandmarker)
           (l : list Effect) : Prop :=
  forallb fixed_options l = true
  /\ (List.length (emitted l) <= List.length (inferences l))%nat
  /\ (wf -> List.length (emitted l) = List.length (inferences l))
  /\ (after = None ->
      before = None /\ camera_requests l = 0%nat /\ inferences l = []).

Definition is_click_start (e : Event) : bool :=
  match e with
  | click_start => true
  | _ => false
  end.

(** A component in which nothing is left to happen but the unmount: it
    is dormant, the upload panel is off and no timer is armed. *)
Definition halted (s : Component) : Prop :=
  dormant s /\ showManualUpload s = false /\ timers s = [].

(** A landmark set one landmark short. *)
Definition short_hand : list Landmark.t :=
  repeat (Landmark.mk 0.5 0.5 0) 20.

(** A hand whose wrist has no x coordinate to speak of. *)
Definition nan_hand : list Landmark.t :=
  sample_hand (Landmark.mk nan 0.5 0) (Landmark.mk 0.5 0.5 0).

Definition malformed_tick (t : float) : Tick :=
  {| video_currentTime := t;
     performance_now := 16;
     detection := {| landmarks := [short_hand] |} |}.

(** The start button pressed, the WASM fileset on its way. *)
Definition loading_wasm_state : Component := reached [click_start].

(** The timeout has fired while the automatic load is in flight. *)
Definition timed_out_state : Component :=
  reached [click_start; wasm_resolved; timeout_fired 1].



(* ================================================================== *)
(** * Facts about the classifier *)

Local Open Scope float_scope.

Section ClassifierFacts.
Context {M : JsMath}.

Lemma length_21_inv (l : list Landmark.t) :
  List.length l = 21%nat ->
  exists l0 l1 l2 l3 l4 l5 l6 l7 l8 l9 l10 l11 l12 l13 l14 l15 l16 l17
         l18 l19 l20,
    l = [l0; l1; l2; l3; l4; l5; l6; l7; l8; l9; l10; l11; l12; l13; l14;
         l15; l16; l17; l18; l19; l20].
Proof.
  intros H.
  do 21 (destruct l as [|? l]; [discriminate H|]).
  destruct l; [|discriminate H].
  repeat eexists.
Qed.

(** On a first landmark set of 21 landmarks nothing throws, and the
    emitted signal is given by closed formulas over the landmarks. *)
Lemma processLandmarks_21 (l : list Landmark.t)
      (rest : list (list Landmark.t)) :
  List.length l = 21%nat ->
  processLandmarks {| landmarks := l :: rest |} =
  Normal
    {| gesture :=
         if average4 (euclidean3 (landmark_at l 8) (landmark_at l 0))
                     (euclidean3 (landmark_at l 12) (landmark_at l 0))
                     (euclidean3 (landmark_at l 16) (landmark_at l 0))
                     (euclidean3 (landmark_at l 20) (landmark_at l 0))
            <? 0.25
         then CLOSED_FIST else OPEN_PALM;
       rotation :=
         Rotation.mk ((Landmark.x (landmark_at l 0) - 0.5) * 4)
                     ((Landmark.y (landmark_at l 0) - 0.5) * 2);
       pinchDistance := euclidean2 (landmark_at l 4) (landmark_at l 8);
       isPresent := true |}.
Proof.
  intros H.
  destruct (length_21_inv l H) as
    (l0 & l1 & l2 & l3 & l4 & l5 & l6 & l7 & l8 & l9 & l10 & l11 & l12
     & l13 & l14 & l15 & l16 & l17 & l18 & l19 & l20 & ->).
  reflexivity.
Qed.

(** C1: on a frame whose first landmark set has 21 landmarks, the
    classifier takes the 3D Euclidean distances from the wrist (index 0)
    to the fingertips 8, 12, 16 and 20, averages the four, and emits
    CLOSED_FIST exactly when the average is strictly below 0.25 and
    OPEN_PALM otherwise; an average of exactly 0.25 gives OPEN_PALM. *)
Theorem gesture_threshold (l : list Landmark.t)
        (rest : list (list Landmark.t)) :
  List.length l = 21%nat ->
  let wrist := landmark_at l 0 in
  let avgDist := average4 (euclidean3 (landmark_at l 8) wrist)
                          (euclidean3 (landmark_at l 12) wrist)
                          (euclidean3 (landmark_at l 16) wrist)
                          (euclidean3 (landmark_at l 20) wrist) in
  exists st,
    processLandmarks {| landmarks := l :: rest |} = Normal st
    /\ (gesture st = CLOSED_FIST <-> (avgDist <? 0.25) = true)
    /\ (gesture st = OPEN_PALM <-> (avgDist <? 0.25) = false)
    /\ (avgDist = 0.25 -> gesture st = OPEN_PALM).
Proof.
  intros H wrist avgDist.
  eexists. split; [apply processLandmarks_21; exact H|].
  cbn [gesture]. fold wrist. fold avgDist.
  repeat split.
  - destruct (avgDist <? 0.25); [reflexivity | discriminate].
  - destruct (avgDist <? 0.25); [reflexivity | discriminate].
  - destruct (avgDist <? 0.25); [discriminate | reflexivity].
  - destruct (avgDist <? 0.25); [discriminate | reflexivity].
  - intros ->. reflexivity.
Qed.

(** On a result without landmark sets the classifier's value is the
    sentinel signal. *)
Lemma processLandmarks_absent :
  processLandmarks {| landmarks := [] |} = Normal absent_signal.
Proof. reflexivity. Qed.

(** C7: with 21 landmarks the rotation is read off the wrist alone,
    rotX = (wrist.x - 0.5) * 4 and rotY = (wrist.y - 0.5) * 2: two frames
    with the same wrist get the same rotation whatever their other
    landmarks; a wrist at (0.5, 0.5) gives (0, 0), at (0, 0) gives
    (-2, -1), at (1, 1) gives (2, 1). *)
Theorem rotation_from_wrist (l l' : list Landmark.t)
        (rest rest' : list (list Landmark.t)) :
  List.length l = 21%nat ->
  List.length l' = 21%nat ->
  landmark_at l' 0 = landmark_at l 0 ->
  let wrist := landmark_at l 0 in
  exists st st',
    processLandmarks {| landmarks := l :: rest |} = Normal st
    /\ processLandmarks {| landmarks := l' :: rest' |} = Normal st'
    /\ rotation st' = rotation st
    /\ rotation st = Rotation.mk ((Landmark.x wrist - 0.5) * 4)
                                 ((Landmark.y wrist - 0.5) * 2)
    /\ (Landmark.x wrist = 0.5 -> Landmark.y wrist = 0.5 ->
        rotation st = Rotation.mk 0 0)
    /\ (Landmark.x wrist = 0 -> Landmark.y wrist = 0 ->
        rotation st = Rotation.mk (-2) (-1))
    /\ (Landmark.x wrist = 1 -> Landmark.y wrist = 1 ->
        rotation st = Rotation.mk 2 1).
Proof.
  intros H H' Hw wrist.
  do 2 eexists.
  split; [apply processLandmarks_21; exact H|].
  split; [apply processLandmarks_21; exact H'|].
  cbn [rotation]. rewrite Hw. fold wrist.
  split; [reflexivity|].
  split; [reflexivity|].
  repeat split; intros -> ->; reflexivity.
Qed.

(** The classifier reads the first landmark set only; the sets after
    it do not change its result, be it a signal or a throw. *)
Lemma processLandmarks_first_only (l : list Landmark.t)
      (rest rest' : list (list Landmark.t)) :
  processLandmarks {| landmarks := l :: rest |}
  = processLandmarks {| landmarks := l :: rest' |}.
Proof. reflexivity. Qed.

Lemma processLandmarks_present (l : list Landmark.t)
      (rest : list (list Landmark.t)) (st : HandState) :
  processLandmarks {| landmarks := l :: rest |} = Normal st ->
  isPresent st = true.
Proof.
  unfold processLandmarks. cbn [landmarks].
  repeat match goal with
         | |- context [bindC ?c _] =>
             destruct c; cbn [bindC]; [|discriminate]
         end.
  intros [= <-]. reflexivity.
Qed.

Lemma processLandmarks_long (l : list Landmark.t)
      (rest : list (list Landmark.t)) :
  (21 <= List.length l)%nat ->
  exists st, processLandmarks {| landmarks := l :: rest |} = Normal st.
Proof.
  intros H.
  do 21 (destruct l as [|? l]; [cbn in H; lia|]).
  eexists. reflexivity.
Qed.

Lemma processLandmarks_short (l : list Landmark.t)
      (rest : list (list Landmark.t)) :
  (List.length l < 21)%nat ->
  processLandmarks {| landmarks := l :: rest |} = Throw_TypeError.
Proof.
  intros H.
  do 21 (destruct l as [|? l]; [reflexivity|]).
  cbn in H. lia.
Qed.

(** C10: the emitted signal is a function of the first landmark set.
    The classifier's result on a frame is the same whatever landmark
    sets follow the first; on a first set that holds its 21 landmarks a
    signal is emitted, the same one for every choice of the sets after
    it, with isPresent true; on a frame with no landmark set a signal is
    emitted with isPresent false; and every emitted signal has isPresent
    true exactly when the frame holds a landmark set. *)
Theorem signal_from_first_set :
  (forall (l : list Landmark.t) (rest rest' : list (list Landmark.t)),
      processLandmarks {| landmarks := l :: rest |}
      = processLandmarks {| landmarks := l :: rest' |})
  /\ (forall (l : list Landmark.t) (rest : list (list Landmark.t)),
         (21 <= List.length l)%nat ->
         exists st,
           processLandmarks {| landmarks := l :: rest |} = Normal st
           /\ (forall rest',
                  processLandmarks {| landmarks := l :: rest' |} = Normal st)
           /\ isPresent st = true)
  /\ (exists st,
         processLandmarks {| landmarks := [] |} = Normal st
         /\ isPresent st = false)
  /\ (forall (result : HandLandmarkerResult) (st : HandState),
         processLandmarks result = Normal st ->
         (isPresent st = true <-> landmarks result <> [])).
Proof.
  split; [|split; [|split]].
  - intros. reflexivity.
  - intros l rest H.
    destruct (processLandmarks_long l rest H) as [st Hst].
    exists st. split; [exact Hst|]. split.
    + intros rest'. rewrite <- Hst. reflexivity.
    + apply (processLandmarks_present l rest st Hst).
  - eexists. split; reflexivity.
  - intros [[|l rest]] st H.
    + cbn in H. injection H as <-. cbn. split; [discriminate|congruence].
    + apply processLandmarks_present in H. rewrite H. cbn.
      split; [discriminate|reflexivity].
Qed.

End ClassifierFacts.

(** The threshold theorem at the hand whose average is exactly 0.25. *)
Lemma gesture_threshold_witness :
  exists st,
    processLandmarks (M := ieee_math) {| landmarks := [boundary_hand] |}
    = Normal st
    /\ gesture st = OPEN_PALM.
Proof.
  destruct (gesture_threshold (M := ieee_math) boundary_hand [] eq_refl)
    as (st & Hst & _ & _ & Hb).
  exists st. split; [exact Hst|]. apply Hb. reflexivity.
Defined.

Example fist_hand_closed :
  processLandmarks (M := ieee_math) {| landmarks := [fist_hand] |}
  = Normal {| gesture := CLOSED_FIST;
              rotation := Rotation.mk (-2) (-1);
              pinchDistance := 0;
              isPresent := true |}.
Proof. reflexivity. Qed.

Example palm_hand_open :
  processLandmarks (M := ieee_math) {| landmarks := [palm_hand] |}
  = Normal {| gesture := OPEN_PALM;
              rotation := Rotation.mk 2 1;
              pinchDistance := 0;
              isPresent := true |}.
Proof. reflexivity. Qed.

(** The rotation theorem at two hands that share the centre wrist. *)
Lemma rotation_from_wrist_witness :
  exists st st',
    processLandmarks (M := ieee_math) {| landmarks := [boundary_hand] |}
    = Normal st
    /\ processLandmarks (M := ieee_math)
         {| landmarks :=
              [sample_hand (Landmark.mk 0.5 0.5 0) (Landmark.mk 0 1 1)] |}
       = Normal st'
    /\ rotation st' = rotation st
    /\ rotation st = Rotation.mk 0 0.
Proof.
  destruct (rotation_from_wrist (M := ieee_math) boundary_hand
              (sample_hand (Landmark.mk 0.5 0.5 0) (Landmark.mk 0 1 1))
              [] [] eq_refl eq_refl eq_refl)
    as (st & st' & H1 & H2 & H3 & _ & H5 & _).
  exists st, st'. repeat split; try assumption.
  apply H5; reflexivity.
Defined.

(** The first-set theorem at a hand of 21 landmarks, alone in its frame
    and followed by a second hand: a signal is emitted, the same one,
    with isPresent true. *)
Lemma signal_from_first_set_witness :
  exists st,
    processLandmarks (M := ieee_math) {| landmarks := [boundary_hand] |}
    = Normal st
    /\ processLandmarks (M := ieee_math)
         {| landmarks := [boundary_hand; fist_hand] |}
       = Normal st
    /\ isPresent st = true.
Proof.
  destruct (proj1 (proj2 (signal_from_first_set (M := ieee_math)))
              boundary_hand [])
    as (st & H1 & H2 & H3).
  - vm_compute. repeat constructor.
  - exists st. split; [exact H1|]. split; [apply H2 | exact H3].
Defined.

(* ================================================================== *)
(** * The IEEE comparisons as an order *)

Module FloatOrder.

Ltac compare_cases :=
  repeat match goal with
  | H : context [Pos.compare_cont Eq ?a ?b] |- _ =>
      change (Pos.compare_cont Eq a b) with (Pos.compare a b) in H
  | |- context [Pos.compare_cont Eq ?a ?b] =>
      change (Pos.compare_cont Eq a b) with (Pos.compare a b)
  | H : context [Z.compare ?a ?b] |- _ => destruct (Z.compare_spec a b)
  | |- context [Z.compare ?a ?b] => destruct (Z.compare_spec a b)
  | H : context [Pos.compare ?a ?b] |- _ => destruct (Pos.compare_spec a b)
  | |- context [Pos.compare ?a ?b] => destruct (Pos.compare_spec a b)
  end.

Ltac by_cases :=
  unfold SFleb, SFeqb, SFltb, SFcompare;
  repeat match goal with
  | f : spec_float |- _ => destruct f as [[|]|[|]| |[|] ? ?]
  end;
  simpl; intros; try congruence; try reflexivity;
  compare_cases; simpl in *; subst; try congruence; try reflexivity;
  try lia.

Lemma SFleb_trans (a b c : spec_float) :
  SFleb a b = true -> SFleb b c = true -> SFleb a c = true.
Proof. by_cases. Qed.

Lemma SFleb_antisym (a b : spec_float) :
  SFleb a b = true -> SFleb b a = true -> SFeqb a b = true.
Proof. by_cases. Qed.

Lemma SFeqb_sym (a b : spec_float) : SFeqb a b = SFeqb b a.
Proof. by_cases. Qed.

Lemma SFeqb_leb (a b : spec_float) :
  SFeqb a b = true -> SFleb a b = true.
Proof. by_cases. Qed.

Lemma SFleb_refl_r (a b : spec_float) :
  SFleb a b = true -> SFeqb b b = true.
Proof. by_cases. Qed.

Lemma leb_trans (a b c : float) :
  (a <=? b) = true -> (b <=? c) = true -> (a <=? c) = true.
Proof. rewrite !FloatAxioms.leb_spec. apply SFleb_trans. Qed.

Lemma leb_antisym (a b : float) :
  (a <=? b) = true -> (b <=? a) = true -> (a =? b) = true.
Proof. rewrite !FloatAxioms.leb_spec, FloatAxioms.eqb_spec. apply SFleb_antisym. Qed.

Lemma eqb_sym (a b : float) : (a =? b) = (b =? a).
Proof. rewrite !FloatAxioms.eqb_spec. apply SFeqb_sym. Qed.

Lemma eqb_leb (a b : float) : (a =? b) = true -> (a <=? b) = true.
Proof. rewrite FloatAxioms.leb_spec, FloatAxioms.eqb_spec. apply SFeqb_leb. Qed.

Lemma leb_refl_r (a b : float) : (a <=? b) = true -> (b =? b) = true.
Proof. rewrite FloatAxioms.leb_spec, FloatAxioms.eqb_spec. apply SFleb_refl_r. Qed.

End FloatOrder.

(* ================================================================== *)
(** * The timestamps the scheduler infers on *)

Lemma times_inferred_cons (t u : float) (l : list float) :
  times_inferred t (u :: l)
  = ((if (u =? t)%float then 1 else 0) + times_inferred t l)%nat.
Proof.
  unfold times_inferred. cbn [filter].
  destruct (u =? t); reflexivity.
Qed.

Lemma changes_subset (ts : list float) :
  forall last t, In t (changes last ts) -> In t ts.
Proof.
  induction ts as [|u ts IH]; intros last t; cbn [changes].
  - intros [].
  - destruct (negb (last =? u)).
    + intros [<- | H]; [left; reflexivity | right; eauto].
    + intros H. right. eauto.
Qed.

(** Over timestamps that never decrease and none of which is below the
    recorded one: a timestamp at or below the recorded one is not
    inferred on again, and an observed one above it exactly once. *)
Lemma changes_count (ts : list float) :
  forall last,
    non_decreasing ts ->
    Forall (fun t => (last <=? t) = true) ts ->
    (forall t, (t <=? last) = true ->
               times_inferred t (changes last ts) = 0%nat)
    /\ (forall t, In t ts -> (last =? t) = false ->
                  times_inferred t (changes last ts) = 1%nat).
Proof.
  induction ts as [|u ts IH]; intros last Hs Hl.
  - split; [reflexivity | intros t []].
  - apply StronglySorted_inv in Hs. destruct Hs as [Hs Hu].
    apply Forall_cons_iff in Hl. destruct Hl as [Hlu Hl].
    cbn [changes].
    destruct (last =? u) eqn:E; cbn [negb].
    + destruct (IH last Hs Hl) as [IHb IHa].
      split; [exact IHb|].
      intros t [<- | Ht] Hne; [congruence | auto].
    + destruct (IH u Hs Hu) as [IHb IHa].
      split.
      * intros t Ht. rewrite times_inferred_cons.
        destruct (u =? t) eqn:Eut.
        -- exfalso.
           assert (Hul : (u <=? last) = true).
           { eapply FloatOrder.leb_trans; [|exact Ht].
             apply FloatOrder.eqb_leb. exact Eut. }
           pose proof (FloatOrder.leb_antisym _ _ Hlu Hul). congruence.
        -- rewrite IHb; [reflexivity|].
           eapply FloatOrder.leb_trans; eassumption.
      * intros t Hin Hne. rewrite times_inferred_cons.
        destruct (u =? t) eqn:Eut.
        -- rewrite IHb; [reflexivity|].
           apply FloatOrder.eqb_leb. rewrite FloatOrder.eqb_sym. exact Eut.
        -- destruct Hin as [<- | Hin].
           ++ pose proof (FloatOrder.leb_refl_r _ _ Hlu). congruence.
           ++ rewrite IHa; auto.
Qed.

(** From the initial recorded timestamp -1, over timestamps that are
    not negative and never decrease. *)
Lemma changes_once (ts : list float) :
  non_decreasing ts ->
  Forall (fun t => (0 <=? t) = true) ts ->
  forall t, In t ts -> times_inferred t (changes (-1) ts) = 1%nat.
Proof.
  intros Hs Hpos t Hin.
  assert (Hl : Forall (fun t => (-1 <=? t) = true) ts).
  { eapply Forall_impl; [|exact Hpos]. cbv beta. intros a Ha.
    eapply FloatOrder.leb_trans; [|exact Ha]. reflexivity. }
  apply (changes_count ts (-1) Hs Hl); [exact Hin|].
  destruct (-1 =? t) eqn:E; [exfalso | reflexivity].
  rewrite Forall_forall in Hpos. specialize (Hpos t Hin).
  assert (H : (0 <=? -1) = true).
  { eapply FloatOrder.leb_trans; [exact Hpos|].
    apply FloatOrder.eqb_leb. rewrite FloatOrder.eqb_sym. exact E. }
  discriminate H.
Qed.

(* ================================================================== *)
(** * Facts about the event loop *)

Local Open Scope list_scope.

Lemma Suspended_eqb_eq (a b : Suspended) :
  Suspended_eqb a b = true <-> a = b.
Proof.
  destruct a, b; cbn; split; intros H;
    try discriminate; try reflexivity;
    try (apply Nat.eqb_eq in H; congruence);
    try (apply String.eqb_eq in H; congruence);
    try (injection H as ->; first [apply Nat.eqb_refl | apply String.eqb_refl]).
Qed.

Lemma existsb_Suspended (k : Suspended) (l : list Suspended) :
  existsb (Suspended_eqb k) l = true <-> In k l.
Proof.
  rewrite existsb_exists. split.
  - intros (k' & Hin & E). apply Suspended_eqb_eq in E. congruence.
  - intros H. exists k. split; [exact H | apply Suspended_eqb_eq; reflexivity].
Qed.

Lemma resume_Some (k : Suspended) (s : Component) :
  In k (pending s) ->
  resume k s = Some (set_pending (remove_first k (pending s)) s).
Proof.
  intros H. unfold resume.
  apply existsb_Suspended in H. rewrite H. reflexivity.
Qed.

Lemma resume_inv (k : Suspended) (s s' : Component) :
  resume k s = Some s' ->
  In k (pending s) /\ s' = set_pending (remove_first k (pending s)) s.
Proof.
  unfold resume. destruct (existsb _ _) eqn:E; [|discriminate].
  intros [= <-]. apply existsb_Suspended in E. split; [exact E | reflexivity].
Qed.

Lemma inferences_app (l l' : list Effect) :
  inferences (l ++ l') = inferences l ++ inferences l'.
Proof.
  induction l as [|[] l IH]; cbn; rewrite ?IH; reflexivity.
Qed.

Lemma emitted_app (l l' : list Effect) :
  emitted (l ++ l') = emitted l ++ emitted l'.
Proof.
  induction l as [|[] l IH]; cbn; rewrite ?IH; reflexivity.
Qed.

Lemma camera_requests_app (l l' : list Effect) :
  camera_requests (l ++ l') = (camera_requests l + camera_requests l')%nat.
Proof.
  induction l as [|[] l IH]; cbn; rewrite ?IH; reflexivity.
Qed.

Lemma model_loads_app (l l' : list Effect) :
  model_loads (l ++ l') = model_loads l ++ model_loads l'.
Proof.
  induction l as [|[] l IH]; cbn; rewrite ?IH; reflexivity.
Qed.

Section SchedulerFacts.
Context {M : JsMath}.

Lemma processLandmarks_total (result : HandLandmarkerResult) :
  well_formed result -> exists st, processLandmarks result = Normal st.
Proof.
  destruct result as [[|l rest]]; unfold well_formed; cbn [landmarks].
  - intros _. eexists. reflexivity.
  - intros H. apply Forall_inv in H. eexists.
    apply processLandmarks_21. exact H.
Qed.

(** A run of [predictWebcam] on a timestamp equal to the recorded one:
    no inference, only the next frame is requested. *)
Lemma predictWebcam_skip (tk : Tick) (s : Component) :
  landmarkerRef s <> None -> videoRef s <> None ->
  (lastVideoTime s =? video_currentTime tk) = true ->
  predictWebcam tk s = reschedule s.
Proof.
  intros Hl Hv E. unfold predictWebcam.
  destruct (landmarkerRef s); [|congruence].
  destruct (videoRef s); [|congruence].
  rewrite E. reflexivity.
Qed.

(** A run on a new timestamp: the timestamp is recorded, the detector
    is called once, its result classified and handed to [onUpdate]. *)
Lemma predictWebcam_infer (tk : Tick) (s : Component) (st : HandState) :
  landmarkerRef s <> None -> videoRef s <> None ->
  (lastVideoTime s =? video_currentTime tk) = false ->
  processLandmarks (detection tk) = Normal st ->
  exists h,
    landmarkerRef s = Some h
    /\ predictWebcam tk s
       = reschedule
           (call (onUpdate st)
              (call (detectForVideo h (video_currentTime tk)
                                    (performance_now tk))
                 (set_lastVideoTime (video_currentTime tk) s))).
Proof.
  intros Hl Hv E Hp. unfold predictWebcam.
  destruct (landmarkerRef s) as [h|]; [|congruence].
  destruct (videoRef s); [|congruence].
  rewrite E, Hp. exists h. split; reflexivity.
Qed.

Lemma frame_requested_reschedule (s : Component) :
  frame_requested (requestRef (reschedule s)) (reschedule s) = true.
Proof.
  unfold frame_requested. cbn. rewrite existsb_app. cbn.
  rewrite Nat.eqb_refl. apply orb_true_iff. right. reflexivity.
Qed.

(** One animation frame of a running loop over a well-formed result:
    the loop keeps running, and the inferences grow by the timestamp when
    it differs from the recorded one, and by nothing otherwise. *)
Lemma animation_frame_inferences (s : Component) (tk : Tick) :
  landmarkerRef s <> None -> videoRef s <> None ->
  frame_requested (requestRef s) s = true ->
  well_formed (detection tk) ->
  exists s',
    step s (animation_frame (requestRef s) tk) = Some s'
    /\ landmarkerRef s' <> None /\ videoRef s' <> None
    /\ frame_requested (requestRef s') s' = true
    /\ lastVideoTime s'
       = (if negb (lastVideoTime s =? video_currentTime tk)
          then video_currentTime tk else lastVideoTime s)
    /\ inferences (log s')
       = inferences (log s)
         ++ (if negb (lastVideoTime s =? video_currentTime tk)
             then [video_currentTime tk] else []).
Proof.
  intros Hl Hv Hf Hw. cbn [step]. rewrite Hf.
  set (s0 := set_frames _ _ s).
  destruct (lastVideoTime s =? video_currentTime tk) eqn:E; cbn [negb].
  - eexists. split; [reflexivity|].
    rewrite predictWebcam_skip by assumption.
    repeat split; try assumption.
    + apply frame_requested_reschedule.
    + cbn. rewrite app_nil_r. reflexivity.
  - destruct (processLandmarks_total _ Hw) as [st Hst].
    eexists. split; [reflexivity|].
    destruct (predictWebcam_infer tk s0 st Hl Hv E Hst) as (h & _ & ->).
    repeat split; try assumption.
    + apply frame_requested_reschedule.
    + cbn. rewrite !inferences_app. cbn. rewrite app_nil_r. reflexivity.
Qed.

(** The inferences of a driven loop are the changes of timestamp. *)
Lemma drive_inferences (ticks : list Tick) :
  forall s,
    landmarkerRef s <> None -> videoRef s <> None ->
    frame_requested (requestRef s) s = true ->
    Forall (fun tk => well_formed (detection tk)) ticks ->
    exists s',
      drive s ticks = Some s'
      /\ inferences (log s')
         = inferences (log s)
           ++ changes (lastVideoTime s) (map video_currentTime ticks).
Proof.
  induction ticks as [|tk ticks IH]; intros s Hl Hv Hf Hw.
  - exists s. split; [reflexivity|]. cbn. rewrite app_nil_r. reflexivity.
  - apply Forall_cons_iff in Hw. destruct Hw as [Hw Hws].
    destruct (animation_frame_inferences s tk Hl Hv Hf Hw)
      as (s1 & Hstep & Hl1 & Hv1 & Hf1 & Hlast & Hinf).
    destruct (IH s1 Hl1 Hv1 Hf1 Hws) as (s' & Hd & Hinf').
    exists s'. cbn [drive]. rewrite Hstep. split; [exact Hd|].
    rewrite Hinf', Hinf, Hlast. cbn [map changes].
    destruct (negb (lastVideoTime s =? video_currentTime tk));
      rewrite <- app_assoc; reflexivity.
Qed.

(** C6: a tick whose media timestamp equals the recorded one infers
    nothing and records nothing, yet requests the next frame; and the
    frame loop, started by [loadeddata] with the initial recorded
    timestamp -1 and run over timestamps that are not negative and never
    decrease (the capture source's contract), calls the detector exactly
    once for each distinct timestamp it observes, hence never twice for
    the same one, and on no timestamp it did not observe. *)
Theorem inference_once_per_timestamp :
  (forall (s : Component) (id : nat) (tk : Tick),
      landmarkerRef s <> None -> videoRef s <> None ->
      frame_requested id s = true ->
      (lastVideoTime s =? video_currentTime tk) = true ->
      exists s',
        step s (animation_frame id tk) = Some s'
        /\ log s' = log s
        /\ lastVideoTime s' = lastVideoTime s
        /\ requestRef s' = nextFrameId s
        /\ frame_requested (requestRef s') s' = true)
  /\ (forall (s : Component) (stream : MediaStream)
             (first : Tick) (ticks : list Tick),
         let observed := map video_currentTime (first :: ticks) in
         landmarkerRef s <> None ->
         videoRef s = Some {| srcObject := Some stream;
                              loadeddata_listeners := 1 |} ->
         lastVideoTime s = (-1) ->
         Forall (fun tk => well_formed (detection tk)) (first :: ticks) ->
         Forall (fun t => (0 <=? t) = true) observed ->
         non_decreasing observed ->
         exists s' new,
           frame_loop s first ticks = Some s'
           /\ inferences (log s') = inferences (log s) ++ new
           /\ (forall t, In t observed -> times_inferred t new = 1%nat)
           /\ (forall t, In t new -> In t observed)).
Proof.
  split.
  - intros s id tk Hl Hv Hf E. cbn [step]. rewrite Hf.
    eexists. split; [reflexivity|].
    rewrite predictWebcam_skip by assumption.
    repeat split. apply frame_requested_reschedule.
  - intros s stream first ticks observed Hl Hv Hlast Hw Hpos Hs.
    apply Forall_cons_iff in Hw. destruct Hw as [Hw0 Hw].
    assert (Hne : (lastVideoTime s =? video_currentTime first) = false).
    { rewrite Hlast.
      destruct (-1 =? video_currentTime first) eqn:E; [exfalso|reflexivity].
      apply Forall_inv in Hpos.
      assert (H : (0 <=? -1) = true).
      { eapply FloatOrder.leb_trans; [exact Hpos|].
        apply FloatOrder.eqb_leb. rewrite FloatOrder.eqb_sym. exact E. }
      discriminate H. }
    destruct (processLandmarks_total _ Hw0) as [st Hst].
    unfold frame_loop. cbn [step]. rewrite Hv.
    unfold has_stream. rewrite Hv. cbn [srcObject loadeddata_listeners].
    unfold Nat.iter. cbn [nat_rect]. unfold on_loadeddata.
    destruct (predictWebcam_infer first (setStatus "ready" s) st)
      as (h & _ & ->);
      [exact Hl | cbn; rewrite Hv; discriminate | exact Hne | exact Hst |].
    match goal with |- context [drive ?x ticks] => set (s1 := x) end.
    destruct (drive_inferences ticks s1) as (s' & Hd & Hinf);
      [exact Hl | cbn; rewrite Hv; discriminate
       | apply frame_requested_reschedule | exact Hw |].
    exists s', (changes (-1) observed).
    split; [exact Hd|]. split.
    + rewrite Hinf. subst s1. cbn [log lastVideoTime reschedule
        requestAnimationFrame set_requestRef set_frames call
        set_lastVideoTime setStatus].
      rewrite !inferences_app. cbn [inferences app].
      rewrite app_nil_r, <- app_assoc. subst observed.
      cbn [map changes app]. rewrite <- Hlast, Hne. reflexivity.
    + split; [apply changes_once; assumption | intros t; apply changes_subset].
Qed.

End SchedulerFacts.

(** The theorem's second half at the state with the stream attached,
    over the timestamps 0, 0, 0.5, 0.5, 1. *)
Lemma inference_once_per_timestamp_witness :
  exists s' new,
    frame_loop (M := ieee_math) stream_attached_state (sample_tick 0)
               [sample_tick 0; sample_tick 0.5; sample_tick 0.5;
                sample_tick 1]
    = Some s'
    /\ inferences (log s')
       = inferences (log stream_attached_state) ++ new
    /\ times_inferred 0 new = 1%nat
    /\ times_inferred 0.5 new = 1%nat
    /\ times_inferred 1 new = 1%nat.
Proof.
  destruct (proj2 (inference_once_per_timestamp (M := ieee_math))
              stream_attached_state sample_stream (sample_tick 0)
              [sample_tick 0; sample_tick 0.5; sample_tick 0.5;
               sample_tick 1])
    as (s' & new & Hrun & Hinf & Hcount & _).
  - vm_compute. discriminate.
  - vm_compute. reflexivity.
  - vm_compute. reflexivity.
  - repeat constructor.
  - repeat constructor.
  - unfold non_decreasing. repeat constructor.
  - exists s', new. split; [exact Hrun|]. split; [exact Hinf|].
    repeat split; apply Hcount; cbn; tauto.
Defined.

(* ================================================================== *)
(** * The classifier inside the loop *)

Section EmissionFacts.
Context {M : JsMath}.

(** C2: on a frame result without landmark sets the classifier's value
    is the sentinel signal {NONE, (0, 0), 1, false}; and whatever state
    earlier frames and calls have left the component in, the inference
    of a run of [predictWebcam] on such a result hands exactly that
    signal to [onUpdate]. *)
Theorem absent_hand_signal :
  processLandmarks {| landmarks := [] |}
  = Normal {| gesture := NONE;
              rotation := Rotation.mk 0 0;
              pinchDistance := 1;
              isPresent := false |}
  /\ (forall (s : Component) (tk : Tick),
         landmarks (detection tk) = [] ->
         landmarkerRef s <> None -> videoRef s <> None ->
         (lastVideoTime s =? video_currentTime tk) = false ->
         emitted (log (predictWebcam tk s))
         = emitted (log s) ++ [absent_signal]).
Proof.
  split; [reflexivity|].
  intros s tk Hr Hl Hv E.
  assert (Hp : processLandmarks (detection tk) = Normal absent_signal).
  { destruct (detection tk) as [ls]. cbn in Hr. subst ls. reflexivity. }
  destruct (predictWebcam_infer tk s absent_signal Hl Hv E Hp)
    as (h & _ & ->).
  cbn [log reschedule requestAnimationFrame set_requestRef set_frames call
       set_lastVideoTime].
  rewrite !emitted_app. cbn [emitted app].
  rewrite app_nil_r. reflexivity.
Qed.

End EmissionFacts.

(* ================================================================== *)
(** * Loading the model *)

Lemma In_remove_first (k k' : Suspended) (l : list Suspended) :
  In k (remove_first k' l) -> In k l.
Proof.
  induction l as [|a l IH]; cbn; [tauto|].
  destruct (Suspended_eqb k' a); cbn; tauto.
Qed.

Lemma In_remove_first_other (k k' : Suspended) (l : list Suspended) :
  In k l -> k <> k' -> In k (remove_first k' l).
Proof.
  intros Hin Hne. induction l as [|a l IH]; cbn; [tauto|].
  destruct (Suspended_eqb k' a) eqn:E.
  - apply Suspended_eqb_eq in E. subst a.
    destruct Hin as [-> | Hin]; [congruence | exact Hin].
  - destruct Hin as [-> | Hin]; [left; reflexivity | right; auto].
Qed.

(** At the unmount the ref is detached, and the cleanup has only the
    requested frame to cancel. *)
Lemma cleanup_detached (s : Component) :
  cleanup (set_videoRef None s)
  = Normal (cancelAnimationFrame (requestRef s) (set_videoRef None s)).
Proof. reflexivity. Qed.

Lemma startCamera_supported (s : Component) :
  navigator_mediaDevices s = true ->
  startCamera s
  = await startCamera_await_getUserMedia
      (call (getUserMedia 640 480 "user")
            (setStatus "requesting_camera" s)).
Proof. intros H. unfold startCamera. cbn. rewrite H. reflexivity. Qed.


(** What [startCamera] leaves alone. *)
Lemma startCamera_frame (s : Component) :
  landmarkerRef (startCamera s) = landmarkerRef s
  /\ showManualUpload (startCamera s) = showManualUpload s
  /\ isStarted (startCamera s) = isStarted s
  /\ timers (startCamera s) = timers s
  /\ frames (startCamera s) = frames s
  /\ videoRef (startCamera s) = videoRef s
  /\ navigator_mediaDevices (startCamera s) = navigator_mediaDevices s
  /\ (forall k, In k (pending (startCamera s)) ->
                In k (pending s) \/ k = startCamera_await_getUserMedia).
Proof.
  unfold startCamera. cbn.
  destruct (navigator_mediaDevices s) eqn:E; cbn;
    repeat (split; [first [reflexivity | exact E]|]).
  - intros k H. apply in_app_or in H.
    destruct H as [H | [<- | []]]; [left; exact H | right; reflexivity].
  - intros k H. left. exact H.
Qed.

(** C3 (the claim as stated, at a concrete interleaving): the manual
    load has won, the status has reached ready with one camera request
    made; the automatic load then succeeds, and the status falls back to
    requesting_camera, the handle is replaced and a second camera
    request is made. *)
Lemma late_auto_load_not_ignored :
  status manual_won_state = "ready"
  /\ landmarkerRef manual_won_state = Some 5%nat
  /\ camera_requests (log manual_won_state) = 1%nat
  /\ exists s',
       step (M := ieee_math) manual_won_state (model_resolved 1 9%nat)
       = Some s'
       /\ status s' = "requesting_camera"
       /\ status s' <> status manual_won_state
       /\ landmarkerRef s' = Some 9%nat
       /\ camera_requests (log s') = 2%nat.
Proof.
  repeat (split; [vm_compute; reflexivity|]).
  eexists. split; [vm_compute; reflexivity|].
  cbn [status landmarkerRef log].
  repeat split; try reflexivity. discriminate.
Qed.

(** C3 (amended): neither load continuation is ignored.  Whenever a
    load that is in flight succeeds, in whatever state the component has
    advanced to, its continuation runs: it stores its handle in the
    shared field, sets the status to requesting_camera and, in an
    environment with a camera, makes one more camera request; every
    other suspended function stays suspended, so that of two loads in
    flight the second to succeed does the same again. *)
Theorem load_success_always_advances {M : JsMath}
        (s : Component) (e : Event) (k : Suspended) (h : HandLandmarker) :
  navigator_mediaDevices s = true ->
  load_of e = Some (k, h) ->
  In k (pending s) ->
  exists s',
    step s e = Some s'
    /\ landmarkerRef s' = Some h
    /\ status s' = "requesting_camera"
    /\ camera_requests (log s') = S (camera_requests (log s))
    /\ navigator_mediaDevices s' = navigator_mediaDevices s
    /\ (forall k', In k' (pending s) -> k' <> k -> In k' (pending s')).
Proof.
  intros Hn He Hin.
  destruct e; try discriminate He; cbn in He; injection He as <- <-;
    cbn [step]; rewrite (resume_Some _ _ Hin); cbn [option_map_state];
    eexists; (split; [reflexivity|]).
  - unfold initVision_model_resolved.
    rewrite startCamera_supported by exact Hn.
    cbn. rewrite camera_requests_app. cbn.
    repeat split; try reflexivity; try lia.
    intros k' Hk' Hne. apply in_or_app. left.
    apply In_remove_first_other; assumption.
  - unfold handleFileUpload_model_resolved.
    rewrite startCamera_supported by exact Hn.
    cbn. rewrite camera_requests_app. cbn.
    repeat split; try reflexivity; try lia.
    intros k' Hk' Hne. apply in_or_app. left.
    apply In_remove_first_other; assumption.
Qed.

(** The amended statement at the state with both loads in flight: the
    manual load succeeds first, the automatic one after it. *)
Lemma load_success_always_advances_witness :
  exists s1 s2,
    step (M := ieee_math) both_loading_state
         (manual_model_resolved "blob:hand_landmarker.task" 5%nat)
    = Some s1
    /\ step (M := ieee_math) s1 (model_resolved 1 9%nat) = Some s2
    /\ landmarkerRef s1 = Some 5%nat
    /\ landmarkerRef s2 = Some 9%nat
    /\ camera_requests (log s2) = 2%nat.
Proof.
  destruct (load_success_always_advances (M := ieee_math)
              both_loading_state
              (manual_model_resolved "blob:hand_landmarker.task" 5%nat)
              (handleFileUpload_await_model "blob:hand_landmarker.task")
              5%nat eq_refl eq_refl)
    as (s1 & H1 & Hh1 & _ & Hc1 & Hn1 & Hk1).
  { vm_compute. right. left. reflexivity. }
  destruct (load_success_always_advances (M := ieee_math)
              s1 (model_resolved 1 9%nat) (initVision_await_model 1)
              9%nat)
    as (s2 & H2 & Hh2 & _ & Hc2 & _).
  { rewrite Hn1. reflexivity. }
  { reflexivity. }
  { apply Hk1; [vm_compute; left; reflexivity | discriminate]. }
  exists s1, s2. repeat split; try assumption.
  rewrite Hc2, Hc1. reflexivity.
Defined.

(* ================================================================== *)
(** * The timeout and the manual-upload panel *)

Lemma timer_armed_In (id : nat) (delay : Z) (s : Component) :
  In (id, delay) (timers s) -> timer_armed id s = true.
Proof.
  intros H. unfold timer_armed. apply existsb_exists.
  exists (id, delay). split; [exact H | apply Nat.eqb_refl].
Qed.

Lemma timer_armed_clearTimeout (id : nat) (s : Component) :
  timer_armed id (clearTimeout id s) = false.
Proof.
  unfold timer_armed, clearTimeout. cbn [timers set_timers].
  induction (timers s) as [|[i d] l IH]; [reflexivity|].
  cbn [filter fst]. destruct (Nat.eqb i id) eqn:E; cbn [negb]; [exact IH|].
  cbn [existsb fst]. rewrite E. exact IH.
Qed.

Lemma manual_upload_shown_false (s : Component) :
  showManualUpload s = false -> manual_upload_shown s = false.
Proof.
  intros H. unfold manual_upload_shown. rewrite H.
  rewrite andb_false_r. cbn. apply andb_false_r.
Qed.

Section PanelFacts.
Context {M : JsMath}.

Lemma predictWebcam_frame (tk : Tick) (s : Component) :
  isStarted (predictWebcam tk s) = isStarted s
  /\ showManualUpload (predictWebcam tk s) = showManualUpload s
  /\ landmarkerRef (predictWebcam tk s) = landmarkerRef s
  /\ pending (predictWebcam tk s) = pending s
  /\ videoRef (predictWebcam tk s) = videoRef s
  /\ status (predictWebcam tk s) = status s.
Proof.
  unfold predictWebcam.
  destruct (landmarkerRef s) eqn:El; [|repeat split; assumption].
  destruct (videoRef s) eqn:Ev; [|repeat split; assumption].
  destruct (negb _); [destruct (processLandmarks _)|]; cbn;
    repeat split; assumption.
Qed.

Lemma on_loadeddata_iter_frame (tk : Tick) (n : nat) (s : Component) :
  isStarted (Nat.iter n (on_loadeddata tk) s) = isStarted s
  /\ showManualUpload (Nat.iter n (on_loadeddata tk) s) = showManualUpload s
  /\ landmarkerRef (Nat.iter n (on_loadeddata tk) s) = landmarkerRef s
  /\ pending (Nat.iter n (on_loadeddata tk) s) = pending s.
Proof.
  induction n as [|n IH]; [repeat split|].
  cbn [Nat.iter nat_rect]. unfold on_loadeddata at 1 3 5 7.
  destruct IH as (I1 & I2 & I3 & I4).
  match goal with
  | |- context [predictWebcam tk ?x] =>
      destruct (predictWebcam_frame tk x) as (P1 & P2 & P3 & P4 & _ & _)
  end.
  rewrite P1, P2, P3, P4. cbn. auto.
Qed.

Lemma stop_all_frame (tracks : list MediaStreamTrack) :
  forall s,
    isStarted (fold_left (fun s t => stop t s) tracks s) = isStarted s
    /\ showManualUpload (fold_left (fun s t => stop t s) tracks s)
       = showManualUpload s
    /\ landmarkerRef (fold_left (fun s t => stop t s) tracks s)
       = landmarkerRef s
    /\ pending (fold_left (fun s t => stop t s) tracks s) = pending s
    /\ frames (fold_left (fun s t => stop t s) tracks s) = frames s
    /\ videoRef (fold_left (fun s t => stop t s) tracks s) = videoRef s
    /\ log (fold_left (fun s t => stop t s) tracks s) = log s
    /\ requestRef (fold_left (fun s t => stop t s) tracks s) = requestRef s.
Proof.
  induction tracks as [|t tracks IH]; intros s; [repeat split|].
  cbn [fold_left]. destruct (IH (stop t s)) as (I1&I2&I3&I4&I5&I6&I7&I8).
  rewrite I1, I2, I3, I4, I5, I6, I7, I8.
  unfold stop. destruct (existsb _ _); repeat split.
Qed.

(** No turn of the event loop brings the panel up in a state where
    nothing can. *)
Lemma upload_not_offered_step (s s' : Component) (e : Event) :
  upload_not_offered s -> step s e = Some s' -> upload_not_offered s'.
Proof.
  intros (Hst & Hsh & Hl & Hw & Hm) Hs.
  unfold upload_not_offered.
  destruct e; cbn [step] in Hs;
    try match type of Hs with
        | option_map_state _ (resume ?k s) = _ =>
            destruct (resume k s) as [s0|] eqn:R; [|discriminate Hs];
            apply resume_inv in R; destruct R as [Hin ->];
            cbn [option_map_state] in Hs; injection Hs as <-
        end;
    try (exfalso; first [exact (Hw Hin) | exact (Hm _ Hin)]).
  - (* click_start *)
    unfold start_button_shown in Hs. rewrite Hst in Hs.
    rewrite andb_false_r in Hs. discriminate Hs.
  - (* timeout_fired *)
    destruct (timer_armed _ s); [|discriminate Hs]. injection Hs as <-.
    unfold timeout_callback. cbn.
    destruct (landmarkerRef s) eqn:El; [|congruence]. cbn.
    rewrite El. auto.
  - (* file_change *)
    rewrite (manual_upload_shown_false s Hsh) in Hs. discriminate Hs.
  - (* manual_wasm_resolved *)
    cbn. repeat split; auto.
    + intros H. apply in_app_or in H. destruct H as [H | [H | []]];
        [apply In_remove_first in H; auto | discriminate H].
    + intros id H. apply in_app_or in H. destruct H as [H | [H | []]];
        [apply In_remove_first in H; eapply Hm; eauto | discriminate H].
  - (* manual_wasm_rejected *)
    cbn. repeat split; auto.
    + intros H. apply In_remove_first in H. auto.
    + intros id H. apply In_remove_first in H. eapply Hm; eauto.
  - (* manual_model_resolved *)
    unfold handleFileUpload_model_resolved.
    match goal with
    | |- context [startCamera ?x] =>
        destruct (startCamera_frame x) as (F1&F2&F3&_&_&_&_&F8)
    end.
    rewrite F1, F2, F3. cbn. repeat split; auto; try discriminate.
    + intros H. apply F8 in H. cbn in H.
      destruct H as [H | H]; [apply In_remove_first in H; auto | discriminate H].
    + intros id H. apply F8 in H. cbn in H.
      destruct H as [H | H];
        [apply In_remove_first in H; eapply Hm; eauto | discriminate H].
  - (* manual_model_rejected *)
    cbn. repeat split; auto.
    + intros H. apply In_remove_first in H. auto.
    + intros id H. apply In_remove_first in H. eapply Hm; eauto.
  - (* camera_granted *)
    unfold startCamera_resolved. cbn.
    destruct (videoRef s); cbn; repeat split; auto.
    + intros H. apply In_remove_first in H. auto.
    + intros id H. apply In_remove_first in H. eapply Hm; eauto.
    + intros H. apply In_remove_first in H. auto.
    + intros id H. apply In_remove_first in H. eapply Hm; eauto.
  - (* camera_rejected *)
    cbn. repeat split; auto.
    + intros H. apply In_remove_first in H. auto.
    + intros id H. apply In_remove_first in H. eapply Hm; eauto.
  - (* loadeddata *)
    destruct (videoRef s) as [video|]; [|discriminate Hs].
    destruct (has_stream s); [|discriminate Hs]. injection Hs as <-.
    destruct (on_loadeddata_iter_frame tk (loadeddata_listeners video) s)
      as (I1 & I2 & I3 & I4).
    rewrite I1, I2, I3, I4. auto.
  - (* animation_frame *)
    destruct (frame_requested _ s); [|discriminate Hs]. injection Hs as <-.
    match goal with
    | |- context [predictWebcam tk ?x] =>
        destruct (predictWebcam_frame tk x) as (P1 & P2 & P3 & P4 & _ & _)
    end.
    rewrite P1, P2, P3, P4. cbn. auto.
  - (* unmount *)
    rewrite cleanup_detached in Hs. injection Hs as <-. cbn. auto.
Qed.

Lemma run_cons (s s' : Component) (e : Event) (es : list Event) :
  step s e = Some s' -> run s (e :: es) = run s' es.
Proof. intros H. cbn [run]. rewrite H. reflexivity. Qed.

Lemma upload_not_offered_run (es : list Event) :
  forall s s',
    upload_not_offered s -> run s es = Some s' -> upload_not_offered s'.
Proof.
  induction es as [|e es IH]; intros s s' Hs Hr; cbn [run] in Hr.
  - injection Hr as <-. exact Hs.
  - destruct (step s e) as [s1|] eqn:E; [|discriminate Hr].
    eapply IH; [|exact Hr]. eapply upload_not_offered_step; eassumption.
Qed.

Lemma detectors_app (l l' : list Effect) :
  detectors (l ++ l') = detectors l ++ detectors l'.
Proof.
  induction l as [|[] l IH]; cbn; rewrite ?IH; reflexivity.
Qed.

Lemma remove_first_single (k : Suspended) : remove_first k [k] = [].
Proof.
  cbn. replace (Suspended_eqb k k) with true; [reflexivity|].
  symmetry. apply Suspended_eqb_eq. reflexivity.
Qed.

(** An inference made after a load has succeeded runs on the handle
    that load stored. *)
Lemma inference_uses_stored_handle (s : Component) (h : HandLandmarker)
      (tk : Tick) :
  landmarkerRef s = Some h -> videoRef s <> None ->
  (lastVideoTime s =? video_currentTime tk) = false ->
  detectors (log (predictWebcam tk s)) = detectors (log s) ++ [h].
Proof.
  intros Hl Hv E. unfold predictWebcam. rewrite Hl.
  destruct (videoRef s); [|congruence]. rewrite E. cbn [negb].
  destruct (processLandmarks _); cbn; rewrite ?detectors_app; cbn;
    rewrite ?app_nil_r; reflexivity.
Qed.

(** C4: the 3000 ms timeout does not cancel the load.  When engine
    creation succeeds while the timeout is still armed, the timeout is
    cleared, the handle stored, the camera requested in the same turn,
    and the manual-upload panel is not shown then or in any later state.
    When the timeout fires first, the panel comes up and the load stays
    in flight; its later success still stores the handle, requests the
    camera, and later inferences run on that handle. *)
Theorem timeout_is_advisory :
  (forall (s : Component) (id : nat) (h : HandLandmarker),
      isStarted s = true -> showManualUpload s = false ->
      pending s = [initVision_await_model id] ->
      In (id, 3000%Z) (timers s) ->
      navigator_mediaDevices s = true ->
      exists s',
        step s (model_resolved id h) = Some s'
        /\ timer_armed id s' = false
        /\ landmarkerRef s' = Some h
        /\ status s' = "requesting_camera"
        /\ camera_requests (log s') = S (camera_requests (log s))
        /\ pending s' = [startCamera_await_getUserMedia]
        /\ (forall es s'', run s' es = Some s'' ->
                           showManualUpload s'' = false
                           /\ manual_upload_shown s'' = false))
  /\ (forall (s : Component) (id : nat) (h : HandLandmarker),
         landmarkerRef s = None ->
         In (initVision_await_model id) (pending s) ->
         In (id, 3000%Z) (timers s) ->
         navigator_mediaDevices s = true ->
         exists s1 s2,
           step s (timeout_fired id) = Some s1
           /\ showManualUpload s1 = true
           /\ pending s1 = pending s
           /\ step s1 (model_resolved id h) = Some s2
           /\ landmarkerRef s2 = Some h
           /\ status s2 = "requesting_camera"
           /\ camera_requests (log s2) = S (camera_requests (log s))
           /\ In startCamera_await_getUserMedia (pending s2)
           /\ (forall tk, videoRef s2 <> None ->
                          (lastVideoTime s2 =? video_currentTime tk) = false ->
                          detectors (log (predictWebcam tk s2))
                          = detectors (log s2) ++ [h])).
Proof.
  split.
  - intros s id h Hst Hsh Hp Ht Hn.
    assert (Hin : In (initVision_await_model id) (pending s))
      by (rewrite Hp; left; reflexivity).
    cbn [step]. rewrite (resume_Some _ _ Hin). cbn [option_map_state].
    rewrite Hp, remove_first_single.
    eexists. split; [reflexivity|].
    unfold initVision_model_resolved.
    rewrite startCamera_supported by exact Hn.
    split; [apply (timer_armed_clearTimeout id s)|].
    split; [reflexivity|]. split; [reflexivity|].
    split; [cbn; rewrite camera_requests_app; cbn; lia|].
    split; [reflexivity|].
    intros es s'' Hr.
    assert (Hinv : upload_not_offered s'').
    { eapply upload_not_offered_run; [|exact Hr].
      unfold upload_not_offered. cbn.
      repeat split; auto; try discriminate.
      - intros [H | []]. discriminate H.
      - intros id' [H | []]. discriminate H. }
    destruct Hinv as (_ & Hsh' & _).
    split; [exact Hsh' | apply manual_upload_shown_false; exact Hsh'].
  - intros s id h Hl Hin Ht Hn.
    cbn [step]. rewrite (timer_armed_In _ _ _ Ht).
    eexists. eexists. split; [reflexivity|].
    unfold timeout_callback. cbn [landmarkerRef clearTimeout set_timers].
    rewrite Hl.
    split; [reflexivity|]. split; [reflexivity|].
    match goal with
    | |- context [resume ?k ?x] =>
        rewrite (resume_Some k x) by exact Hin
    end.
    cbn [option_map_state].
    split; [reflexivity|].
    unfold initVision_model_resolved.
    rewrite startCamera_supported by exact Hn.
    split; [reflexivity|]. split; [reflexivity|].
    split; [cbn; rewrite camera_requests_app; cbn; lia|].
    split; [cbn; apply in_or_app; right; left; reflexivity|].
    intros tk Hv E.
    apply inference_uses_stored_handle; [reflexivity | exact Hv | exact E].
Qed.

End PanelFacts.

(** The theorem's first half at the state with the automatic load in
    flight and the timeout armed: scenario A. *)
Lemma timeout_is_advisory_witness :
  exists s',
    step (M := ieee_math) loading_model_state (model_resolved 1 7%nat)
    = Some s'
    /\ timer_armed 1 s' = false
    /\ status s' = "requesting_camera"
    /\ (forall es s'', run (M := ieee_math) s' es = Some s'' ->
                       manual_upload_shown s'' = false).
Proof.
  destruct (proj1 (timeout_is_advisory (M := ieee_math))
              loading_model_state 1%nat 7%nat)
    as (s' & Hs & Ht & _ & Hst & _ & _ & Hn);
    try reflexivity.
  { vm_compute. left. reflexivity. }
  exists s'. repeat split; try assumption.
  intros es s'' Hr. apply (Hn es s'' Hr).
Defined.


(* ================================================================== *)
(** * The manual fallback *)

Section FallbackFacts.
Context {M : JsMath}.

Lemma on_loadeddata_iter_status (tk : Tick) (n : nat) (s : Component) :
  status (Nat.iter (S n) (on_loadeddata tk) s) = "ready".
Proof.
  cbn [Nat.iter nat_rect]. unfold on_loadeddata at 1.
  match goal with
  | |- context [predictWebcam tk ?x] =>
      destruct (predictWebcam_frame tk x) as (_ & _ & _ & _ & _ & P)
  end.
  rewrite P. reflexivity.
Qed.

(** C5: when the automatic load fails, with the timeout fired or
    still armed, the status becomes waiting_for_file, the error message
    is set and the manual-upload panel is shown.  Choosing a file then
    starts engine creation on the object URL of that file, and when it
    succeeds the status goes from loading_model_manual through
    requesting_camera to ready.  When the manual attempt fails, at
    either of its awaits, the status becomes error with the file
    message, and nothing is started again: no function is suspended, no
    timer armed and no call made by the failure. *)
Theorem manual_fallback :
  (forall (s : Component) (id : nat),
      isStarted s = true ->
      In (initVision_await_model id) (pending s) ->
      exists s',
        step s (model_rejected id) = Some s'
        /\ status s' = "waiting_for_file"
        /\ errorMessage s' = "无法连接 Google 服务器下载模型"
        /\ showManualUpload s' = true
        /\ manual_upload_shown s' = true
        /\ timer_armed id s' = false)
  /\ (forall (s : Component) (file : File) (files : list File)
             (h : HandLandmarker) (stream : MediaStream) (tk : Tick),
         let url := createObjectURL file in
         manual_upload_shown s = true ->
         navigator_mediaDevices s = true ->
         videoRef s <> None ->
         exists s1 s2 s3 s4 s5,
           step s (file_change (Some (file :: files))) = Some s1
           /\ status s1 = "loading_model_manual"
           /\ step s1 (manual_wasm_resolved url) = Some s2
           /\ status s2 = "loading_model_manual"
           /\ model_loads (log s2) = model_loads (log s) ++ [url]
           /\ step s2 (manual_model_resolved url h) = Some s3
           /\ status s3 = "requesting_camera"
           /\ landmarkerRef s3 = Some h
           /\ step s3 (camera_granted stream) = Some s4
           /\ status s4 = "requesting_camera"
           /\ step s4 (loadeddata tk) = Some s5
           /\ status s5 = "ready")
  /\ (forall (s : Component) (url message : string) (e : Event)
             (k : Suspended),
         (e = manual_wasm_rejected url message
          /\ k = handleFileUpload_await_wasm url)
         \/ (e = manual_model_rejected url message
             /\ k = handleFileUpload_await_model url) ->
         In k (pending s) ->
         exists s',
           step s e = Some s'
           /\ status s' = "error"
           /\ errorMessage s' = ("文件无效: " ++ message)%string
           /\ pending s' = remove_first k (pending s)
           /\ timers s' = timers s
           /\ log s' = log s).
Proof.
  split; [|split].
  - intros s id Hst Hin.
    cbn [step]. rewrite (resume_Some _ _ Hin). cbn [option_map_state].
    eexists. split; [reflexivity|].
    split; [reflexivity|]. split; [reflexivity|]. split; [reflexivity|].
    split.
    + unfold manual_upload_shown, overlay_shown. cbn. rewrite Hst.
      reflexivity.
    + apply (timer_armed_clearTimeout id).
  - intros s file files h stream tk url Hsh Hn Hv.
    destruct (videoRef s) as [video|] eqn:Ev; [clear Hv|congruence].
    (* the file is chosen *)
    eexists. eexists. eexists. eexists. eexists.
    split; [cbn [step]; rewrite Hsh; reflexivity|].
    split; [reflexivity|].
    (* the fileset resolves *)
    split.
    { cbn [step]. fold url.
      rewrite resume_Some
        by (cbn; apply in_or_app; right; left; reflexivity).
      reflexivity. }
    split; [reflexivity|].
    split.
    { cbn. rewrite !model_loads_app. cbn. rewrite app_nil_r. reflexivity. }
    (* the engine is created *)
    split.
    { cbn [step].
      rewrite resume_Some
        by (cbn; apply in_or_app; right; left; reflexivity).
      reflexivity. }
    cbn [option_map_state]. unfold handleFileUpload_model_resolved.
    match goal with
    | |- context [startCamera ?x] =>
        rewrite (startCamera_supported x) by exact Hn
    end.
    split; [reflexivity|]. split; [reflexivity|].
    (* the camera is granted *)
    split.
    { cbn [step].
      rewrite resume_Some
        by (cbn; apply in_or_app; right; left; reflexivity).
      reflexivity. }
    cbn [option_map_state]. unfold startCamera_resolved. cbn [videoRef
      set_pending await call setStatus setShowManualUpload set_landmarkerRef
      handleFileUpload_wasm_resolved handleFileUpload].
    rewrite Ev.
    split; [reflexivity|].
    (* the video has data *)
    split; [reflexivity|].
    cbn [videoRef set_videoRef loadeddata_listeners].
    apply on_loadeddata_iter_status.
  - intros s url message e k [[-> ->] | [-> ->]] Hin;
      cbn [step]; rewrite (resume_Some _ _ Hin); cbn [option_map_state];
      eexists; (split; [reflexivity|]); repeat split.
Qed.

End FallbackFacts.

(** The theorem at the state with the automatic load in flight (its
    failure), and at the state that failure leaves (the manual load that
    follows): scenario B. *)
Lemma manual_fallback_witness :
  exists s0 s5,
    step (M := ieee_math) loading_model_state (model_rejected 1) = Some s0
    /\ status s0 = "waiting_for_file"
    /\ run (M := ieee_math) s0
         [file_change (Some ["hand_landmarker.task"]);
          manual_wasm_resolved "blob:hand_landmarker.task";
          manual_model_resolved "blob:hand_landmarker.task" 5%nat;
          camera_granted sample_stream;
          loadeddata (sample_tick 0)]
       = Some s5
    /\ status s5 = "ready".
Proof.
  destruct (proj1 (manual_fallback (M := ieee_math))
              loading_model_state 1%nat eq_refl)
    as (s0 & H0 & Hst0 & _ & _ & Hshown & _).
  { vm_compute. left. reflexivity. }
  assert (Hn : navigator_mediaDevices s0 = true).
  { cbn [step] in H0.
    destruct (resume _ loading_model_state) as [x|] eqn:R;
      [|discriminate H0].
    cbn [option_map_state] in H0. injection H0 as <-.
    unfold resume in R. destruct (existsb _ _); [|discriminate R].
    injection R as <-. reflexivity. }
  assert (Hv : videoRef s0 <> None).
  { cbn [step] in H0.
    destruct (resume _ loading_model_state) as [x|] eqn:R;
      [|discriminate H0].
    cbn [option_map_state] in H0. injection H0 as <-.
    unfold resume in R. destruct (existsb _ _); [|discriminate R].
    injection R as <-. discriminate. }
  destruct (proj1 (proj2 (manual_fallback (M := ieee_math)))
              s0 "hand_landmarker.task" [] 5%nat sample_stream
              (sample_tick 0) Hshown Hn Hv)
    as (s1 & s2 & s3 & s4 & s5 & H1 & _ & H2 & _ & _ & H3 & _ & _ & H4 & _
        & H5 & Hready).
  exists s0, s5. split; [exact H0|]. split; [exact Hst0|].
  split; [|exact Hready].
  change (createObjectURL "hand_landmarker.task")
    with "blob:hand_landmarker.task" in H2, H3.
  rewrite (run_cons _ _ _ _ H1), (run_cons _ _ _ _ H2),
    (run_cons _ _ _ _ H3), (run_cons _ _ _ _ H4), (run_cons _ _ _ _ H5).
  reflexivity.
Defined.

(* ================================================================== *)
(** * Teardown *)

Lemma filter_filter_same {A} (p : A -> bool) (l : list A) :
  filter p (filter p l) = filter p l.
Proof.
  induction l as [|a l IH]; [reflexivity|].
  cbn [filter]. destruct (p a) eqn:E; [|exact IH].
  cbn [filter]. rewrite E, IH. reflexivity.
Qed.

Lemma filter_not_requested (id : nat) (l : list nat) :
  existsb (Nat.eqb id) l = false ->
  filter (fun f => negb (Nat.eqb f id)) l = l.
Proof.
  induction l as [|a l IH]; [reflexivity|].
  cbn [existsb filter]. intros H. apply orb_false_iff in H.
  destruct H as [Ha Hl]. rewrite Nat.eqb_sym, Ha. cbn [negb].
  rewrite (IH Hl). reflexivity.
Qed.

Lemma cancelAnimationFrame_noop (id : nat) (s : Component) :
  filter (fun f => negb (Nat.eqb f id)) (frames s) = frames s ->
  cancelAnimationFrame id s = s.
Proof.
  unfold cancelAnimationFrame. intros ->. destruct s. reflexivity.
Qed.

Lemma stop_noop (t : MediaStreamTrack) (s : Component) :
  In t (endedTracks s) -> stop t s = s.
Proof.
  intros H. unfold stop.
  replace (existsb (Nat.eqb t) (endedTracks s)) with true; [reflexivity|].
  symmetry. apply existsb_exists. exists t.
  split; [exact H | apply Nat.eqb_refl].
Qed.

Lemma stop_ended (t u : MediaStreamTrack) (s : Component) :
  In t (endedTracks (stop u s)) <-> In t (endedTracks s) \/ t = u.
Proof.
  unfold stop. destruct (existsb (Nat.eqb u) (endedTracks s)) eqn:E.
  - split; [tauto|]. intros [H | ->]; [exact H|].
    apply existsb_exists in E. destruct E as (x & Hx & Ex).
    apply Nat.eqb_eq in Ex. subst x. exact Hx.
  - cbn. rewrite in_app_iff. cbn. split.
    + intros [H | [<- | []]]; auto.
    + intros [H | ->]; auto.
Qed.

Lemma stop_all_ended (tracks : list MediaStreamTrack) :
  forall s t,
    In t (endedTracks (fold_left (fun s t => stop t s) tracks s))
    <-> In t (endedTracks s) \/ In t tracks.
Proof.
  induction tracks as [|u tracks IH]; intros s t; cbn [fold_left In].
  - tauto.
  - rewrite IH, stop_ended. split.
    + intros [[H | ->] | H]; auto.
    + intros [H | [<- | H]]; auto.
Qed.

Lemma stop_all_noop (tracks : list MediaStreamTrack) :
  forall s,
    (forall t, In t tracks -> In t (endedTracks s)) ->
    fold_left (fun s t => stop t s) tracks s = s.
Proof.
  induction tracks as [|u tracks IH]; intros s H; cbn [fold_left].
  - reflexivity.
  - rewrite (stop_noop u s) by (apply H; left; reflexivity).
    apply IH. intros t Ht. apply H. right. exact Ht.
Qed.

Lemma has_stream_current (s : Component) :
  has_stream s = match current_stream s with
                 | Some _ => true
                 | None => false
                 end.
Proof.
  unfold has_stream, current_stream. destruct (videoRef s); reflexivity.
Qed.

(** C8: teardown never throws; run a second time right after the
    first it changes nothing; the tracks it ends are tracks of the
    attached camera stream, and none when no stream is attached; and
    with no stream attached and no frame requested it leaves the
    component as it was. *)
Theorem teardown_idempotent (s : Component) :
  exists s1,
    cleanup s = Normal s1
    /\ cleanup s1 = Normal s1
    /\ (forall t, In t (endedTracks s1) ->
                  In t (endedTracks s)
                  \/ exists stream, current_stream s = Some stream
                                    /\ In t (getTracks stream))
    /\ (current_stream s = None ->
        frame_requested (requestRef s) s = false ->
        s1 = s).
Proof.
  unfold cleanup. rewrite has_stream_current.
  set (s0 := cancelAnimationFrame (requestRef s) s).
  assert (Hc : current_stream s0 = current_stream s) by reflexivity.
  assert (Hs0 : cancelAnimationFrame (requestRef s0) s0 = s0).
  { apply cancelAnimationFrame_noop. subst s0. cbn.
    apply filter_filter_same. }
  rewrite Hc.
  destruct (current_stream s) as [stream|] eqn:Es; cbn [prop bindC].
  - set (s1 := fold_left (fun s t => stop t s) (getTracks stream) s0).
    destruct (stop_all_frame (getTracks stream) s0)
      as (_ & _ & _ & _ & Hf & Hv & _ & Hr).
    fold s1 in Hf, Hv, Hr.
    exists s1. split; [reflexivity|].
    assert (Hc1 : current_stream s1 = Some stream).
    { unfold current_stream. rewrite Hv. exact Es. }
    assert (Hs1 : cancelAnimationFrame (requestRef s1) s1 = s1).
    { apply cancelAnimationFrame_noop. rewrite Hf, Hr. subst s0. cbn.
      apply filter_filter_same. }
    split.
    + rewrite Hs1, has_stream_current, Hc1. cbn [prop bindC]. f_equal.
      apply stop_all_noop. intros t Ht. subst s1.
      apply stop_all_ended. right. exact Ht.
    + split.
      * intros t Ht. subst s1. apply stop_all_ended in Ht.
        destruct Ht as [Ht | Ht]; [left; exact Ht|].
        right. exists stream. split; [reflexivity | exact Ht].
      * intros H. discriminate H.
  - exists s0. split; [reflexivity|].
    split; [rewrite Hs0, has_stream_current, Hc; reflexivity|].
    split; [intros t Ht; left; exact Ht|].
    intros _ Hf. subst s0. apply cancelAnimationFrame_noop.
    apply filter_not_requested. exact Hf.
Qed.

Example teardown_mounted :
  cleanup (mounted true) = Normal (mounted true).
Proof. reflexivity. Qed.

(* ================================================================== *)
(** * Camera acquisition *)

Section CameraFacts.
Context {M : JsMath}.






End CameraFacts.



(* ================================================================== *)
(** * Further facts about the classifier *)

Lemma ltb_not_nan (a b : float) : (a <? b) = true -> (a =? a) = true.
Proof.
  rewrite FloatAxioms.ltb_spec, FloatAxioms.eqb_spec.
  generalize (Prim2SF a), (Prim2SF b). intros x y. FloatOrder.by_cases.
Qed.

Section MoreClassifierFacts.
Context {M : JsMath}.

(** X1: the classifier throws a TypeError exactly on a first landmark set
    of fewer than 21 landmarks, and returns a signal exactly on one of
    21 or more: the landmarks after the twenty-first are not read. *)
Theorem processLandmarks_throws_iff_short (l : list Landmark.t)
        (rest : list (list Landmark.t)) :
  (processLandmarks {| landmarks := l :: rest |} = Throw_TypeError
   <-> (List.length l < 21)%nat)
  /\ ((exists st, processLandmarks {| landmarks := l :: rest |} = Normal st)
      <-> (21 <= List.length l)%nat)
  /\ (forall more : list Landmark.t,
         (21 <= List.length l)%nat ->
         processLandmarks {| landmarks := (l ++ more) :: rest |}
         = processLandmarks {| landmarks := l :: rest |}).
Proof.
  split; [|split].
  - split; [|apply processLandmarks_short].
    intros H. destruct (Nat.lt_ge_cases (List.length l) 21) as [Hlt|Hge];
      [exact Hlt|].
    destruct (processLandmarks_long l rest Hge) as [st Hst]. congruence.
  - split; [|apply processLandmarks_long].
    intros [st Hst].
    destruct (Nat.lt_ge_cases (List.length l) 21) as [Hlt|Hge];
      [|exact Hge].
    rewrite (processLandmarks_short l rest Hlt) in Hst. discriminate Hst.
  - intros more H.
    do 21 (destruct l as [|? l]; [cbn in H; lia|]).
    reflexivity.
Qed.

(** X2: the pinch distance is the 2D distance between landmarks 4 and 8: it
    does not read their z, nor any other landmark. *)
Theorem pinch_distance_2d (l l' : list Landmark.t)
        (rest rest' : list (list Landmark.t)) :
  List.length l = 21%nat -> List.length l' = 21%nat ->
  Landmark.x (landmark_at l' 4) = Landmark.x (landmark_at l 4) ->
  Landmark.y (landmark_at l' 4) = Landmark.y (landmark_at l 4) ->
  Landmark.x (landmark_at l' 8) = Landmark.x (landmark_at l 8) ->
  Landmark.y (landmark_at l' 8) = Landmark.y (landmark_at l 8) ->
  exists st st',
    processLandmarks {| landmarks := l :: rest |} = Normal st
    /\ processLandmarks {| landmarks := l' :: rest' |} = Normal st'
    /\ pinchDistance st' = pinchDistance st
    /\ pinchDistance st
       = Math_sqrt
           (Math_pow (Landmark.x (landmark_at l 4)
                      - Landmark.x (landmark_at l 8)) 2
            + Math_pow (Landmark.y (landmark_at l 4)
                        - Landmark.y (landmark_at l 8)) 2).
Proof.
  intros H H' Hx4 Hy4 Hx8 Hy8.
  do 2 eexists.
  split; [apply processLandmarks_21; exact H|].
  split; [apply processLandmarks_21; exact H'|].
  cbn [pinchDistance]. unfold euclidean2.
  rewrite Hx4, Hy4, Hx8, Hy8. split; reflexivity.
Qed.

(** X3: in every signal the classifier returns, the gesture is NONE exactly
    when isPresent is false, and such a signal is the sentinel: a
    present hand is always OPEN_PALM or CLOSED_FIST. *)
Theorem gesture_none_iff_absent (result : HandLandmarkerResult)
        (st : HandState) :
  processLandmarks result = Normal st ->
  (gesture st = NONE <-> isPresent st = false)
  /\ (isPresent st = false -> st = absent_signal)
  /\ (isPresent st = true ->
      gesture st = OPEN_PALM \/ gesture st = CLOSED_FIST).
Proof.
  destruct result as [[|l rest]]; unfold processLandmarks; cbn [landmarks].
  - intros [= <-]. cbn. repeat split; try discriminate; auto.
  - repeat match goal with
           | |- context [bindC ?c _] =>
               destruct c; cbn [bindC]; [|discriminate]
           end.
    intros [= <-]. cbn [gesture isPresent].
    match goal with |- context [if ?b then _ else _] => destruct b end;
      repeat split; try discriminate; auto.
Qed.

(** X4: an average distance that is not a number is not below 0.25: a hand
    whose distances come out as NaN is classified OPEN_PALM. *)
Theorem nan_average_is_open_palm (l : list Landmark.t)
        (rest : list (list Landmark.t)) :
  List.length l = 21%nat ->
  let wrist := landmark_at l 0 in
  let avgDist := average4 (euclidean3 (landmark_at l 8) wrist)
                          (euclidean3 (landmark_at l 12) wrist)
                          (euclidean3 (landmark_at l 16) wrist)
                          (euclidean3 (landmark_at l 20) wrist) in
  (avgDist =? avgDist) = false ->
  exists st,
    processLandmarks {| landmarks := l :: rest |} = Normal st
    /\ gesture st = OPEN_PALM.
Proof.
  intros H wrist avgDist Hnan.
  eexists. split; [apply processLandmarks_21; exact H|].
  cbn [gesture]. fold wrist. fold avgDist.
  destruct (avgDist <? 0.25) eqn:E; [|reflexivity].
  apply ltb_not_nan in E. congruence.
Qed.

End MoreClassifierFacts.

Lemma pinch_distance_2d_witness :
  exists st st',
    processLandmarks (M := ieee_math) {| landmarks := [boundary_hand] |}
    = Normal st
    /\ processLandmarks (M := ieee_math)
         {| landmarks :=
              [sample_hand (Landmark.mk 0 0 3) (Landmark.mk 0.75 0.5 9)] |}
       = Normal st'
    /\ pinchDistance st' = pinchDistance st.
Proof.
  destruct (pinch_distance_2d (M := ieee_math) boundary_hand
              (sample_hand (Landmark.mk 0 0 3) (Landmark.mk 0.75 0.5 9))
              [] [] eq_refl eq_refl eq_refl eq_refl eq_refl eq_refl)
    as (st & st' & H1 & H2 & H3 & _).
  exists st, st'. repeat split; assumption.
Defined.

Lemma gesture_none_iff_absent_witness :
  gesture absent_signal = NONE <-> isPresent absent_signal = false.
Proof.
  exact (proj1 (gesture_none_iff_absent (M := ieee_math)
                  {| landmarks := [] |} absent_signal eq_refl)).
Defined.

Lemma nan_average_is_open_palm_witness :
  exists st,
    processLandmarks (M := ieee_math) {| landmarks := [nan_hand] |}
    = Normal st
    /\ gesture st = OPEN_PALM.
Proof.
  apply (nan_average_is_open_palm (M := ieee_math) nan_hand [] eq_refl).
  vm_compute. reflexivity.
Defined.

Example short_hand_throws :
  processLandmarks (M := ieee_math) {| landmarks := [short_hand] |}
  = Throw_TypeError.
Proof. reflexivity. Qed.

(* ================================================================== *)
(** * What every turn adds to the log *)

Lemma log_growth_nil (wf : Prop) (h : option HandLandmarker) :
  log_growth wf h h [].
Proof. unfold log_growth. cbn. repeat split; auto. Qed.

Lemma log_growth_app (wf : Prop) (h0 h1 h2 : option HandLandmarker)
      (l l' : list Effect) :
  log_growth wf h0 h1 l -> log_growth wf h1 h2 l' ->
  log_growth wf h0 h2 (l ++ l').
Proof.
  intros (F & L & E & N) (F' & L' & E' & N').
  unfold log_growth.
  rewrite forallb_app, emitted_app, inferences_app, camera_requests_app,
    !length_app, F, F'.
  split; [reflexivity|]. split; [lia|]. split.
  - intros W. rewrite (E W), (E' W). reflexivity.
  - intros H. destruct (N' H) as (H1 & C' & I').
    destruct (N H1) as (H0 & C & I).
    rewrite C, C', I, I'. repeat split; auto.
Qed.

Section LogFacts.
Context {M : JsMath}.

(** The calls of one run of [predictWebcam]. *)
Lemma predictWebcam_log (tk : Tick) (s : Component) :
  landmarkerRef (predictWebcam tk s) = landmarkerRef s
  /\ exists l,
       log (predictWebcam tk s) = log s ++ l
       /\ log_growth (well_formed (detection tk))
                     (landmarkerRef s) (landmarkerRef s) l.
Proof.
  split; [apply predictWebcam_frame|].
  unfold predictWebcam.
  destruct (landmarkerRef s) as [h|] eqn:El;
    [|exists []; split; [rewrite app_nil_r; reflexivity
                        | apply log_growth_nil]].
  destruct (videoRef s);
    [|exists []; split; [rewrite app_nil_r; reflexivity
                        | apply log_growth_nil]].
  destruct (negb _);
    [|exists []; split; [cbn; rewrite app_nil_r; reflexivity
                        | apply log_growth_nil]].
  destruct (processLandmarks (detection tk)) as [st|] eqn:Ep.
  - eexists. split; [cbn; rewrite <- app_assoc; reflexivity|].
    unfold log_growth. cbn. repeat split; auto; discriminate.
  - eexists. split; [cbn; reflexivity|].
    unfold log_growth. cbn. repeat split; auto; try discriminate.
    intros W. destruct (processLandmarks_total _ W) as [st Hst].
    congruence.
Qed.

Lemma on_loadeddata_iter_log (tk : Tick) (n : nat) (s : Component) :
  landmarkerRef (Nat.iter n (on_loadeddata tk) s) = landmarkerRef s
  /\ exists l,
       log (Nat.iter n (on_loadeddata tk) s) = log s ++ l
       /\ log_growth (well_formed (detection tk))
                     (landmarkerRef s) (landmarkerRef s) l.
Proof.
  induction n as [|n IH].
  - split; [reflexivity|]. exists [].
    split; [cbn; rewrite app_nil_r; reflexivity | apply log_growth_nil].
  - destruct IH as (Hl & l & Hlog & Hg).
    change (Nat.iter (S n) (on_loadeddata tk) s)
      with (on_loadeddata tk (Nat.iter n (on_loadeddata tk) s)).
    set (x := Nat.iter n (on_loadeddata tk) s) in *.
    unfold on_loadeddata.
    destruct (predictWebcam_log tk (setStatus "ready" x))
      as (Pl & l' & Plog & Pg).
    cbn [landmarkerRef setStatus log] in Pl, Plog, Pg.
    rewrite Pl, Plog, Hlog, Hl. split; [reflexivity|].
    rewrite Hl in Pg.
    exists (l ++ l'). split; [rewrite app_assoc; reflexivity|].
    eapply log_growth_app; eassumption.
Qed.

Ltac no_call :=
  exists []; split; [cbn; rewrite app_nil_r; reflexivity|];
  unfold log_growth; cbn; repeat split; auto; try discriminate.

Ltac some_calls :=
  eexists; split; [cbn; rewrite <- ?app_assoc; reflexivity|];
  unfold log_growth; cbn; repeat split; auto; try discriminate.

(** The calls of one turn of the event loop. *)
Lemma step_log (s s' : Component) (e : Event) :
  step s e = Some s' ->
  exists l,
    log s' = log s ++ l
    /\ log_growth (event_well_formed e)
                  (landmarkerRef s) (landmarkerRef s') l.
Proof.
  intros Hs.
  destruct e; cbn [step] in Hs;
    try match type of Hs with
        | option_map_state _ (resume ?k s) = _ =>
            destruct (resume k s) as [s0|] eqn:R; [|discriminate Hs];
            apply resume_inv in R; destruct R as [Hin ->];
            cbn [option_map_state] in Hs; injection Hs as <-
        end.
  - (* click_start *)
    destruct (start_button_shown s); [|discriminate Hs].
    injection Hs as <-. some_calls.
  - (* wasm_resolved *) some_calls.
  - (* wasm_rejected *) no_call.
  - (* timeout_fired *)
    destruct (timer_armed _ s); [|discriminate Hs]. injection Hs as <-.
    unfold timeout_callback. cbn [landmarkerRef clearTimeout set_timers].
    destruct (landmarkerRef s) eqn:El;
      (exists []; split; [cbn; rewrite app_nil_r; reflexivity|]);
      unfold log_growth; cbn; rewrite El;
      repeat split; auto; discriminate.
  - (* model_resolved *)
    unfold initVision_model_resolved, startCamera. cbn.
    destruct (navigator_mediaDevices s); [some_calls | no_call].
  - (* model_rejected *) no_call.
  - (* file_change *)
    destruct (manual_upload_shown s); [|discriminate Hs].
    injection Hs as <-.
    destruct files as [[|file files]|]; [no_call | some_calls | no_call].
  - (* manual_wasm_resolved *) some_calls.
  - (* manual_wasm_rejected *) no_call.
  - (* manual_model_resolved *)
    unfold handleFileUpload_model_resolved, startCamera. cbn.
    destruct (navigator_mediaDevices s); [some_calls | no_call].
  - (* manual_model_rejected *) no_call.
  - (* camera_granted *)
    unfold startCamera_resolved. cbn.
    destruct (videoRef s); no_call.
  - (* camera_rejected *) no_call.
  - (* loadeddata *)
    destruct (videoRef s) as [video|]; [|discriminate Hs].
    destruct (has_stream s); [|discriminate Hs]. injection Hs as <-.
    destruct (on_loadeddata_iter_log tk (loadeddata_listeners video) s)
      as (Hl & l & Hlog & Hg).
    exists l. rewrite Hl. split; assumption.
  - (* animation_frame *)
    destruct (frame_requested _ s); [|discriminate Hs]. injection Hs as <-.
    match goal with
    | |- context [predictWebcam tk ?x] =>
        destruct (predictWebcam_log tk x) as (Pl & l & Plog & Pg)
    end.
    exists l. rewrite Pl. split; assumption.
  - (* unmount *)
    rewrite cleanup_detached in Hs. injection Hs as <-. cbn.
    exists []. split; [rewrite app_nil_r; reflexivity|].
    apply log_growth_nil.
Qed.

(** The calls of a run of turns. *)
Lemma run_log (es : list Event) :
  forall s s',
    run s es = Some s' ->
    exists l,
      log s' = log s ++ l
      /\ log_growth (Forall event_well_formed es)
                    (landmarkerRef s) (landmarkerRef s') l.
Proof.
  induction es as [|e es IH]; intros s s' Hr; cbn [run] in Hr.
  - injection Hr as <-. exists [].
    split; [rewrite app_nil_r; reflexivity | apply log_growth_nil].
  - destruct (step s e) as [s1|] eqn:E; [|discriminate Hr].
    destruct (step_log s s1 e E) as (l & Hl & F & L & W & N).
    destruct (IH s1 s' Hr) as (l' & Hl' & F' & L' & W' & N').
    exists (l ++ l'). split; [rewrite Hl', Hl, app_assoc; reflexivity|].
    apply (log_growth_app _ _ (landmarkerRef s1)).
    + split; [exact F|]. split; [exact L|]. split; [|exact N].
      intros Hf. apply W. apply Forall_inv in Hf. exact Hf.
    + split; [exact F'|]. split; [exact L'|]. split; [|exact N'].
      intros Hf. apply W'. apply Forall_inv_tail in Hf. exact Hf.
Qed.

(** X5: before a model load has succeeded the component has not asked for
    the camera, called the detector or emitted a signal: in every state
    reached from the mounting in which no landmarker is stored, the log
    holds no [getUserMedia], no [detectForVideo] and no [onUpdate]. *)
Theorem nothing_before_model (mediaDevices : bool) (es : list Event)
        (s : Component) :
  run (mounted mediaDevices) es = Some s ->
  landmarkerRef s = None ->
  camera_requests (log s) = 0%nat
  /\ inferences (log s) = []
  /\ emitted (log s) = [].
Proof.
  intros Hr Hn.
  destruct (run_log es _ _ Hr) as (l & Hl & _ & L & _ & N).
  cbn [log mounted app] in Hl. rewrite Hl.
  destruct (N Hn) as (_ & C & I).
  split; [exact C|]. split; [exact I|].
  rewrite I in L. cbn in L. destruct (emitted l); [reflexivity|].
  cbn in L. lia.
Qed.

(** X6: every call the component ever makes carries the same options: the
    runtime is fetched from WASM_URL, every engine creation asks for the
    GPU delegate, VIDEO mode and one hand, every camera request for
    640 by 480 and the user-facing camera. *)
Theorem options_are_fixed (mediaDevices : bool) (es : list Event)
        (s : Component) :
  run (mounted mediaDevices) es = Some s ->
  forallb fixed_options (log s) = true.
Proof.
  intros Hr.
  destruct (run_log es _ _ Hr) as (l & Hl & F & _).
  cbn [log mounted app] in Hl. rewrite Hl. exact F.
Qed.

(** X7: [onUpdate] is called at most once per detector call, and exactly
    once per detector call when every detector result has 21 landmarks
    in each of its sets: a signal is lost only to a throw of the
    classifier. *)
Theorem one_signal_per_inference (mediaDevices : bool) (es : list Event)
        (s : Component) :
  run (mounted mediaDevices) es = Some s ->
  (List.length (emitted (log s)) <= List.length (inferences (log s)))%nat
  /\ (Forall event_well_formed es ->
      List.length (emitted (log s)) = List.length (inferences (log s))).
Proof.
  intros Hr.
  destruct (run_log es _ _ Hr) as (l & Hl & _ & L & W & _).
  cbn [log mounted app] in Hl. rewrite Hl. split; assumption.
Qed.

End LogFacts.

Lemma run_timed_out :
  run (M := ieee_math) (mounted true)
      [click_start; wasm_resolved; timeout_fired 1]
  = Some timed_out_state.
Proof. vm_compute. reflexivity. Qed.

Lemma run_manual_won :
  run (M := ieee_math) (mounted true)
      [click_start; wasm_resolved; timeout_fired 1;
       file_change (Some ["hand_landmarker.task"%string]);
       manual_wasm_resolved "blob:hand_landmarker.task";
       manual_model_resolved "blob:hand_landmarker.task" 5%nat;
       camera_granted sample_stream; loadeddata (sample_tick 0)]
  = Some manual_won_state.
Proof. vm_compute. reflexivity. Qed.

Lemma run_streaming :
  run (M := ieee_math) (mounted true)
      [click_start; wasm_resolved; model_resolved 1 7%nat;
       camera_granted sample_stream; loadeddata (sample_tick 0);
       animation_frame 1%nat (sample_tick 0.5)]
  = Some streaming_state.
Proof. vm_compute. reflexivity. Qed.

(** After the timeout has fired and before any load has succeeded. *)
Lemma nothing_before_model_witness :
  camera_requests (log timed_out_state) = 0%nat
  /\ inferences (log timed_out_state) = []
  /\ emitted (log timed_out_state) = [].
Proof.
  apply (nothing_before_model (M := ieee_math) true _ _ run_timed_out).
  vm_compute. reflexivity.
Defined.

Lemma options_are_fixed_witness :
  forallb fixed_options (log manual_won_state) = true.
Proof.
  exact (options_are_fixed (M := ieee_math) true _ _ run_manual_won).
Defined.

Lemma one_signal_per_inference_witness :
  List.length (emitted (log streaming_state))
  = List.length (inferences (log streaming_state)).
Proof.
  apply (one_signal_per_inference (M := ieee_math) true _ _ run_streaming).
  repeat constructor.
Defined.

(* ================================================================== *)
(** * The statuses and the panels *)

Lemma in_rendered (v : string) :
  v = "loading_wasm" \/ v = "loading_model" \/ v = "waiting_for_file"
  \/ v = "loading_model_manual" \/ v = "requesting_camera"
  \/ v = "ready" \/ v = "error" ->
  In v rendered_statuses /\ v <> EmptyString.
Proof.
  unfold rendered_statuses. cbn.
  intros [->|[->|[->|[->|[->|[->| ->]]]]]]; split;
    try discriminate; auto 12.
Qed.

Ltac literal_status :=
  unfold status_invariant; cbn;
  split; [apply in_rendered; auto 12|];
  split; [intros _; discriminate|];
  intros [H | H]; try discriminate H; try reflexivity.

Section StatusFacts.
Context {M : JsMath}.

Lemma on_loadeddata_iter_status' (tk : Tick) (n : nat) (s : Component) :
  status (Nat.iter n (on_loadeddata tk) s)
  = match n with O => status s | S _ => "ready" end.
Proof.
  destruct n; [reflexivity | apply on_loadeddata_iter_status].
Qed.

(** Every turn keeps the status invariant, and keeps a started
    component started. *)
Lemma status_invariant_step (s s' : Component) (e : Event) :
  status_invariant s -> step s e = Some s' ->
  status_invariant s' /\ (isStarted s = true -> isStarted s' = true).
Proof.
  intros Hinv Hs.
  destruct e; cbn [step] in Hs;
    try match type of Hs with
        | option_map_state _ (resume ?k s) = _ =>
            destruct (resume k s) as [s0|] eqn:R; [|discriminate Hs];
            apply resume_inv in R; destruct R as [Hin ->];
            cbn [option_map_state] in Hs; injection Hs as <-
        end.
  - (* click_start *)
    destruct (start_button_shown s); [|discriminate Hs].
    injection Hs as <-. split; [literal_status | reflexivity].
  - (* wasm_resolved *) split; [literal_status | auto].
  - (* wasm_rejected *) split; [literal_status | auto].
  - (* timeout_fired *)
    destruct (timer_armed _ s); [|discriminate Hs]. injection Hs as <-.
    unfold timeout_callback. cbn [landmarkerRef clearTimeout set_timers].
    destruct (landmarkerRef s); split; auto.
    destruct Hinv as (H1 & H2 & H3). unfold status_invariant. cbn. auto.
  - (* model_resolved *)
    unfold initVision_model_resolved, startCamera. cbn.
    destruct (navigator_mediaDevices s); (split; [literal_status | auto]).
  - (* model_rejected *) split; [literal_status | auto].
  - (* file_change *)
    destruct (manual_upload_shown s) eqn:Esh; [|discriminate Hs].
    injection Hs as <-.
    destruct files as [[|file files]|]; try (split; [exact Hinv | auto]).
    split; [|auto]. literal_status.
    unfold manual_upload_shown in Esh.
    apply andb_true_iff in Esh. destruct Esh as [_ Esh].
    apply andb_true_iff in Esh. destruct Esh as [Esh _].
    apply andb_true_iff in Esh. destruct Esh as [_ Esh]. exact Esh.
  - (* manual_wasm_resolved *) split; [exact Hinv | auto].
  - (* manual_wasm_rejected *) split; [literal_status | auto].
  - (* manual_model_resolved *)
    unfold handleFileUpload_model_resolved, startCamera. cbn.
    destruct (navigator_mediaDevices s); (split; [literal_status | auto]).
  - (* manual_model_rejected *) split; [literal_status | auto].
  - (* camera_granted *)
    unfold startCamera_resolved. cbn.
    destruct (videoRef s); (split; [exact Hinv | auto]).
  - (* camera_rejected *) split; [literal_status | auto].
  - (* loadeddata *)
    destruct (videoRef s) as [video|]; [|discriminate Hs].
    destruct (has_stream s); [|discriminate Hs]. injection Hs as <-.
    destruct (on_loadeddata_iter_frame tk (loadeddata_listeners video) s)
      as (I1 & I2 & _ & _).
    split; [|rewrite I1; auto].
    unfold status_invariant.
    rewrite I1, I2, on_loadeddata_iter_status'.
    destruct (loadeddata_listeners video); [exact Hinv|].
    split; [apply in_rendered; auto 12|].
    split; [intros _; discriminate|].
    intros [H | H]; discriminate H.
  - (* animation_frame *)
    destruct (frame_requested _ s); [|discriminate Hs]. injection Hs as <-.
    match goal with
    | |- context [predictWebcam tk ?x] =>
        destruct (predictWebcam_frame tk x) as (P1 & P2 & _ & _ & _ & P6)
    end.
    unfold status_invariant. rewrite P1, P2, P6.
    split; [exact Hinv | auto].
  - (* unmount *)
    rewrite cleanup_detached in Hs. injection Hs as <-.
    split; [exact Hinv | auto].
Qed.

Lemma status_invariant_run (es : list Event) :
  forall s s',
    status_invariant s -> run s es = Some s' ->
    status_invariant s' /\ (isStarted s = true -> isStarted s' = true).
Proof.
  induction es as [|e es IH]; intros s s' Hinv Hr; cbn [run] in Hr.
  - injection Hr as <-. auto.
  - destruct (step s e) as [s1|] eqn:E; [|discriminate Hr].
    destruct (status_invariant_step s s1 e Hinv E) as (H1 & H2).
    destruct (IH s1 s' H1 Hr) as (H3 & H4). auto.
Qed.

Lemma status_invariant_mounted (mediaDevices : bool) :
  status_invariant (mounted mediaDevices).
Proof.
  unfold status_invariant. cbn. split; [auto|].
  split; [discriminate|]. intros [H | H]; discriminate H.
Qed.

(** X8: in every state reached from the mounting the status is the
    initial one or one of the seven the component settles on; it is
    never "initializing", which [startExperience] sets and [initVision]
    overwrites before the turn ends; and once started it is never the
    initial one again. *)
Theorem status_is_rendered (mediaDevices : bool) (es : list Event)
        (s : Component) :
  run (mounted mediaDevices) es = Some s ->
  In (status s) rendered_statuses
  /\ status s <> "initializing"
  /\ (isStarted s = true -> status s <> EmptyString).
Proof.
  intros Hr.
  destruct (status_invariant_run es _ _
              (status_invariant_mounted mediaDevices) Hr)
    as ((H1 & H2 & _) & _).
  split; [exact H1|]. split; [|exact H2].
  intros E. rewrite E in H1. cbn in H1.
  repeat (destruct H1 as [H1 | H1]; [discriminate H1|]). exact H1.
Qed.

(** X9: whenever the spinner is rendered it has a caption: in every state
    reached from the mounting where the loading panel is shown, the
    status is one of the three that the panel has a text for. *)
Theorem spinner_has_caption (mediaDevices : bool) (es : list Event)
        (s : Component) :
  run (mounted mediaDevices) es = Some s ->
  loading_shown s = true ->
  loading_text s <> EmptyString.
Proof.
  intros Hr Hsh.
  destruct (status_invariant_run es _ _
              (status_invariant_mounted mediaDevices) Hr)
    as ((H1 & H2 & H3) & _).
  unfold loading_shown in Hsh.
  apply andb_true_iff in Hsh. destruct Hsh as [_ Hsh].
  apply andb_true_iff in Hsh. destruct Hsh as [Hsh Hshow].
  apply andb_true_iff in Hsh. destruct Hsh as [Hsh Herr].
  apply andb_true_iff in Hsh. destruct Hsh as [Hst Hready].
  apply negb_true_iff in Hshow, Herr, Hready.
  unfold loading_text. unfold rendered_statuses in H1. cbn in H1.
  destruct H1 as [E|[E|[E|[E|[E|[E|[E|[E|[]]]]]]]]]; rewrite <- E in *;
    try discriminate; cbn in *; try discriminate.
  - exfalso. exact (H2 Hst eq_refl).
  - rewrite H3 in Hshow by auto. discriminate Hshow.
  - rewrite H3 in Hshow by auto. discriminate Hshow.
Qed.

(** X10: the start button can be pressed once: in any run of the event
    loop, from any state, at most one event is the click, and a started
    component stays started. *)
Theorem started_once (es : list Event) (s s' : Component) :
  run s es = Some s' ->
  (List.length (filter is_click_start es) <= 1)%nat
  /\ (isStarted s = true ->
      filter is_click_start es = [] /\ isStarted s' = true).
Proof.
  assert (Hstarted :
            forall es s s', isStarted s = true -> run s es = Some s' ->
                            filter is_click_start es = []
                            /\ isStarted s' = true).
  { clear. induction es as [|e es IH]; intros s s' Hst Hr; cbn [run] in Hr.
    - injection Hr as <-. auto.
    - destruct (step s e) as [s1|] eqn:E; [|discriminate Hr].
      assert (H1 : isStarted s1 = true /\ is_click_start e = false).
      { destruct e; cbn [step] in E;
          try match type of E with
              | option_map_state _ (resume ?k s) = _ =>
                  destruct (resume k s) as [s0|] eqn:R; [|discriminate E];
                  apply resume_inv in R; destruct R as [Hin ->];
                  cbn [option_map_state] in E; injection E as <-
              end; try (split; [exact Hst | reflexivity]).
        - unfold start_button_shown in E. rewrite Hst in E.
          rewrite andb_false_r in E. discriminate E.
        - destruct (timer_armed _ s); [|discriminate E]. injection E as <-.
          unfold timeout_callback. cbn.
          destruct (landmarkerRef s); auto.
        - split; [|reflexivity]. unfold initVision_model_resolved.
          match goal with
          | |- context [startCamera ?x] =>
              destruct (startCamera_frame x) as (_ & _ & F3 & _)
          end.
          rewrite F3. exact Hst.
        - destruct (manual_upload_shown s); [|discriminate E].
          injection E as <-.
          destruct files as [[|? ?]|]; auto.
        - split; [|reflexivity]. unfold handleFileUpload_model_resolved.
          match goal with
          | |- context [startCamera ?x] =>
              destruct (startCamera_frame x) as (_ & _ & F3 & _)
          end.
          rewrite F3. exact Hst.
        - unfold startCamera_resolved. cbn. destruct (videoRef s); auto.
        - destruct (videoRef s) as [video|]; [|discriminate E].
          destruct (has_stream s); [|discriminate E]. injection E as <-.
          destruct (on_loadeddata_iter_frame tk
                      (loadeddata_listeners video) s) as (I1 & _).
          rewrite I1. auto.
        - destruct (frame_requested _ s); [|discriminate E].
          injection E as <-.
          match goal with
          | |- context [predictWebcam tk ?x] =>
              destruct (predictWebcam_frame tk x) as (P1 & _)
          end.
          rewrite P1. auto.
        - rewrite cleanup_detached in E. injection E as <-. auto. }
      destruct H1 as (Hst1 & Hc). cbn [filter]. rewrite Hc.
      apply (IH s1 s' Hst1 Hr). }
  revert s s'. induction es as [|e es IH]; intros s s' Hr.
  - split; [cbn; lia|]. intros Hst. apply (Hstarted [] s s' Hst Hr).
  - split; [|intros Hst; apply (Hstarted _ s s' Hst Hr)].
    cbn [run] in Hr. destruct (step s e) as [s1|] eqn:E; [|discriminate Hr].
    cbn [filter]. destruct (is_click_start e) eqn:Ec.
    + destruct e; try discriminate Ec. cbn [step] in E.
      destruct (start_button_shown s); [|discriminate E]. injection E as <-.
      destruct (Hstarted es (startExperience s) s' eq_refl Hr) as (-> & _).
      cbn. lia.
    + apply (IH s1 s' Hr).
Qed.

End StatusFacts.

(** X11: the panels of the overlay.  The overlay is down exactly when the
    started component is ready; before the start only the start button
    can be up of the three panels for a started component; once started,
    an overlay that is up shows the spinner, the upload panel or the
    error panel; and the spinner is never up together with the upload
    panel or with the error panel. *)
Theorem overlay_panels (s : Component) :
  (overlay_shown s = false <-> isStarted s = true /\ status s = "ready")
  /\ (isStarted s = false ->
      start_button_shown s = true
      /\ loading_shown s = false /\ manual_upload_shown s = false)
  /\ (isStarted s = true -> overlay_shown s = true ->
      start_button_shown s = false
      /\ (loading_shown s || manual_upload_shown s || error_shown s) = true)
  /\ (loading_shown s && manual_upload_shown s) = false
  /\ (loading_shown s && error_shown s) = false.
Proof.
  unfold loading_shown, manual_upload_shown, error_shown,
    start_button_shown, overlay_shown.
  destruct (isStarted s), (showManualUpload s);
    destruct (String.eqb_spec (status s) "ready") as [Er|Er];
    destruct (String.eqb_spec (status s) "error") as [Ee|Ee];
    cbn; repeat split; intros; try discriminate; try congruence; auto;
    try (destruct H; congruence); try tauto.
Qed.

Lemma status_is_rendered_witness :
  In (status manual_won_state) rendered_statuses
  /\ status manual_won_state <> "initializing".
Proof.
  destruct (status_is_rendered (M := ieee_math) true _ _ run_manual_won)
    as (H1 & H2 & _).
  split; assumption.
Defined.

Lemma spinner_has_caption_witness :
  loading_text loading_wasm_state <> EmptyString.
Proof.
  apply (spinner_has_caption (M := ieee_math) true [click_start]).
  - vm_compute. reflexivity.
  - vm_compute. reflexivity.
Defined.

Lemma started_once_witness :
  isStarted streaming_state = true.
Proof.
  apply (started_once (M := ieee_math)
           [wasm_resolved; model_resolved 1 7%nat;
            camera_granted sample_stream; loadeddata (sample_tick 0);
            animation_frame 1%nat (sample_tick 0.5)]
           loading_wasm_state streaming_state).
  - vm_compute. reflexivity.
  - vm_compute. reflexivity.
Defined.

(* ================================================================== *)
(** * Ends of the frame loop and of the lifecycle *)

Section EndFacts.
Context {M : JsMath}.

(** X12: a throw of the classifier ends the frame loop.  On a new timestamp
    and a detector result that makes [processLandmarks] throw, the run
    of [predictWebcam] made by the one requested frame records the
    timestamp and calls the detector, hands nothing to [onUpdate] and
    requests no frame: no animation frame can run afterwards. *)
Theorem throw_ends_frame_loop (s : Component) (id : nat) (tk : Tick) :
  landmarkerRef s <> None -> videoRef s <> None ->
  frames s = [id] ->
  (lastVideoTime s =? video_currentTime tk) = false ->
  processLandmarks (detection tk) = Throw_TypeError ->
  exists s',
    step s (animation_frame id tk) = Some s'
    /\ inferences (log s') = inferences (log s) ++ [video_currentTime tk]
    /\ emitted (log s') = emitted (log s)
    /\ lastVideoTime s' = video_currentTime tk
    /\ frames s' = []
    /\ (forall id' tk', step s' (animation_frame id' tk') = None).
Proof.
  intros Hl Hv Hf E Hp.
  cbn [step]. unfold frame_requested. rewrite Hf. cbn [existsb].
  rewrite Nat.eqb_refl. cbn [orb filter negb].
  eexists. split; [reflexivity|].
  unfold predictWebcam. cbn [landmarkerRef videoRef lastVideoTime set_frames].
  destruct (landmarkerRef s) as [h|]; [|congruence].
  destruct (videoRef s); [|congruence].
  rewrite E, Hp, Nat.eqb_refl. cbn.
  rewrite inferences_app, emitted_app. cbn. rewrite app_nil_r.
  repeat split.
Qed.

(** Every turn that can happen in a halted component leaves it halted,
    with its status, its message and its log. *)
Lemma halted_step (s s' : Component) (e : Event) :
  halted s -> step s e = Some s' ->
  halted s' /\ status s' = status s /\ errorMessage s' = errorMessage s
  /\ log s' = log s.
Proof.
  intros ((Hst & Hp & Hf & Hl) & Hsh & Ht) Hs.
  unfold halted, dormant.
  destruct e; cbn [step] in Hs;
    try match type of Hs with
        | option_map_state _ (resume ?k s) = _ =>
            destruct (resume k s) as [s0|] eqn:R; [|discriminate Hs];
            apply resume_inv in R; destruct R as [Hin _];
            rewrite Hp in Hin; destruct Hin
        end.
  - unfold start_button_shown in Hs. rewrite Hst in Hs.
    rewrite andb_false_r in Hs. discriminate Hs.
  - unfold timer_armed in Hs. rewrite Ht in Hs. discriminate Hs.
  - rewrite (manual_upload_shown_false s Hsh) in Hs. discriminate Hs.
  - unfold listeners in Hl.
    destruct (videoRef s) as [video|] eqn:Ev; [|discriminate Hs].
    destruct (has_stream s); [|discriminate Hs]. injection Hs as <-.
    rewrite Hl. cbn [Nat.iter nat_rect]. unfold listeners. rewrite Ev.
    repeat split; auto.
  - unfold frame_requested in Hs. rewrite Hf in Hs. discriminate Hs.
  - rewrite cleanup_detached in Hs. injection Hs as <-.
    unfold listeners. cbn. rewrite Hf. repeat split; auto.
Qed.

Lemma halted_run (es : list Event) :
  forall s s',
    halted s -> run s es = Some s' ->
    halted s' /\ status s' = status s /\ errorMessage s' = errorMessage s
    /\ log s' = log s.
Proof.
  induction es as [|e es IH]; intros s s' Hh Hr; cbn [run] in Hr.
  - injection Hr as <-. auto.
  - destruct (step s e) as [s1|] eqn:E; [|discriminate Hr].
    destruct (halted_step s s1 e Hh E) as (H1 & H2 & H3 & H4).
    destruct (IH s1 s' H1 Hr) as (H5 & H6 & H7 & H8).
    split; [exact H5|]. repeat split; congruence.
Qed.

(** X13: a failure to load the WASM runtime is final.  With only
    [initVision] suspended at its first await, the rejection sets the
    status error and a message that is never empty (the error's own, or
    the fallback text when it has none); it arms no timer and starts no
    engine creation, and in every later state the status and the message
    are the same, no call has been added, and the upload panel is not
    shown. *)
Theorem runtime_failure_is_final (s : Component) (message : string) :
  isStarted s = true -> showManualUpload s = false ->
  pending s = [initVision_await_wasm] ->
  timers s = [] -> frames s = [] -> listeners s = 0%nat ->
  exists s',
    step s (wasm_rejected message) = Some s'
    /\ status s' = "error"
    /\ errorMessage s'
       = (if (message =? EmptyString)%string then "初始化失败" else message)
    /\ errorMessage s' <> EmptyString
    /\ log s' = log s
    /\ (forall es s'',
           run s' es = Some s'' ->
           status s'' = "error"
           /\ errorMessage s'' = errorMessage s'
           /\ log s'' = log s
           /\ manual_upload_shown s'' = false).
Proof.
  intros Hst Hsh Hp Ht Hf Hl.
  cbn [step].
  rewrite resume_Some by (rewrite Hp; left; reflexivity).
  cbn [option_map_state]. rewrite Hp, remove_first_single.
  eexists. split; [reflexivity|].
  split; [reflexivity|].
  split; [destruct message; reflexivity|].
  split; [destruct message; cbn; discriminate|].
  split; [reflexivity|].
  intros es s'' Hr.
  match type of Hr with
  | run ?x es = _ =>
      assert (Hh : halted x)
        by (unfold halted, dormant, listeners in *; cbn;
            repeat split; auto);
      destruct (halted_run es x s'' Hh Hr)
        as ((_ & Hsh'' & _) & H1 & H2 & H3)
  end.
  split; [rewrite H1; reflexivity|].
  split; [exact H2|].
  split; [rewrite H3; reflexivity|].
  apply manual_upload_shown_false. exact Hsh''.
Qed.

(** With the video ref detached, no turn of the event loop attaches it
    again, ends a track, calls the detector or emits a signal. *)
Lemma detached_step (s s' : Component) (e : Event) :
  videoRef s = None -> step s e = Some s' ->
  videoRef s' = None
  /\ endedTracks s' = endedTracks s
  /\ inferences (log s') = inferences (log s)
  /\ emitted (log s') = emitted (log s).
Proof.
  intros Hv Hs.
  destruct e; cbn [step] in Hs;
    try match type of Hs with
        | option_map_state _ (resume ?k s) = _ =>
            destruct (resume k s) as [s0|] eqn:R; [|discriminate Hs];
            apply resume_inv in R; destruct R as [_ ->];
            cbn [option_map_state] in Hs; injection Hs as <-
        end;
    try (cbn; rewrite ?inferences_app, ?emitted_app; cbn;
         rewrite ?app_nil_r; repeat split; auto; fail).
  - destruct (start_button_shown s); [|discriminate Hs].
    injection Hs as <-.
    cbn; rewrite ?inferences_app, ?emitted_app; cbn;
      rewrite ?app_nil_r; repeat split; auto.
  - destruct (timer_armed _ s); [|discriminate Hs]. injection Hs as <-.
    unfold timeout_callback. cbn.
    destruct (landmarkerRef s); cbn; repeat split; auto.
  - unfold initVision_model_resolved, startCamera. cbn.
    destruct (navigator_mediaDevices s);
      cbn; rewrite ?inferences_app, ?emitted_app; cbn;
      rewrite ?app_nil_r; repeat split; auto.
  - destruct (manual_upload_shown s); [|discriminate Hs].
    injection Hs as <-.
    destruct files as [[|file files]|];
      cbn; rewrite ?inferences_app, ?emitted_app; cbn;
      rewrite ?app_nil_r; repeat split; auto.
  - unfold handleFileUpload_model_resolved, startCamera. cbn.
    destruct (navigator_mediaDevices s);
      cbn; rewrite ?inferences_app, ?emitted_app; cbn;
      rewrite ?app_nil_r; repeat split; auto.
  - unfold startCamera_resolved. cbn. rewrite Hv. cbn. repeat split; auto.
  - rewrite Hv in Hs. discriminate Hs.
  - destruct (frame_requested _ s); [|discriminate Hs]. injection Hs as <-.
    unfold predictWebcam. cbn. rewrite Hv.
    destruct (landmarkerRef s); cbn; repeat split; auto.
  - rewrite cleanup_detached in Hs. injection Hs as <-. cbn.
    repeat split; auto.
Qed.

Lemma detached_run (es : list Event) :
  forall s s',
    videoRef s = None -> run s es = Some s' ->
    videoRef s' = None
    /\ endedTracks s' = endedTracks s
    /\ inferences (log s') = inferences (log s)
    /\ emitted (log s') = emitted (log s).
Proof.
  induction es as [|e es IH]; intros s s' Hv Hr; cbn [run] in Hr.
  - injection Hr as <-. auto.
  - destruct (step s e) as [s1|] eqn:E; [|discriminate Hr].
    destruct (detached_step s s1 e Hv E) as (H1 & H2 & H3 & H4).
    destruct (IH s1 s' H1 Hr) as (H5 & H6 & H7 & H8).
    split; [exact H5|]. repeat split; congruence.
Qed.

(** X14: the unmount cancels the frame that [requestRef] holds and ends
    no camera track: the ref of the video element is detached before
    the cleanup of the effect runs, so its guard on [videoRef.current]
    fails.  The unmount is always possible and makes no call; after it
    the ref stays detached, no track is ever ended, and the detector is
    never called and no signal emitted again. *)
Theorem unmount_ends_no_track (s : Component) :
  exists s',
    step s unmount = Some s'
    /\ videoRef s' = None
    /\ endedTracks s' = endedTracks s
    /\ frames s'
       = filter (fun f => negb (Nat.eqb f (requestRef s))) (frames s)
    /\ frame_requested (requestRef s) s' = false
    /\ log s' = log s
    /\ (forall es s'',
           run s' es = Some s'' ->
           videoRef s'' = None
           /\ endedTracks s'' = endedTracks s
           /\ inferences (log s'') = inferences (log s)
           /\ emitted (log s'') = emitted (log s)).
Proof.
  cbn [step]. rewrite cleanup_detached.
  eexists. split; [reflexivity|].
  split; [reflexivity|]. split; [reflexivity|]. split; [reflexivity|].
  split.
  { unfold frame_requested. cbn.
    induction (frames s) as [|f l IH]; [reflexivity|].
    cbn [filter]. destruct (Nat.eqb f (requestRef s)) eqn:E; cbn [negb].
    - exact IH.
    - cbn [existsb]. rewrite Nat.eqb_sym, E. exact IH. }
  split; [reflexivity|].
  intros es s'' Hr.
  apply (detached_run es
           (cancelAnimationFrame (requestRef s) (set_videoRef None s)) s''
           eq_refl Hr).
Qed.

(** X15: the two successes leave the upload panel differently.  With the
    panel up (the timeout has fired) a success of the automatic load
    moves the status to requesting_camera and leaves the panel up, the
    spinner hidden; a success of the manual load takes the panel down
    and shows the spinner. *)
Theorem panel_after_load_success (s : Component) (e : Event)
        (k : Suspended) (h : HandLandmarker) :
  navigator_mediaDevices s = true ->
  isStarted s = true -> showManualUpload s = true ->
  load_of e = Some (k, h) ->
  In k (pending s) ->
  exists s',
    step s e = Some s'
    /\ status s' = "requesting_camera"
    /\ manual_upload_shown s'
       = (match e with model_resolved _ _ => true | _ => false end)
    /\ loading_shown s'
       = (match e with model_resolved _ _ => false | _ => true end).
Proof.
  intros Hn Hst Hsh He Hin.
  destruct e; try discriminate He; cbn in He; injection He as <- <-;
    cbn [step]; rewrite (resume_Some _ _ Hin); cbn [option_map_state];
    eexists; (split; [reflexivity|]).
  - unfold initVision_model_resolved.
    rewrite startCamera_supported by exact Hn.
    unfold manual_upload_shown, loading_shown, overlay_shown. cbn.
    rewrite Hst, Hsh. repeat split.
  - unfold handleFileUpload_model_resolved.
    rewrite startCamera_supported by exact Hn.
    unfold manual_upload_shown, loading_shown, overlay_shown. cbn.
    rewrite Hst. repeat split.
Qed.

End EndFacts.

Lemma throw_ends_frame_loop_witness :
  exists s',
    step (M := ieee_math) streaming_state
         (animation_frame 2%nat (malformed_tick 1))
    = Some s'
    /\ frames s' = []
    /\ emitted (log s') = emitted (log streaming_state).
Proof.
  destruct (throw_ends_frame_loop (M := ieee_math) streaming_state 2%nat
              (malformed_tick 1))
    as (s' & H1 & _ & H3 & _ & H5 & _).
  - vm_compute. discriminate.
  - vm_compute. discriminate.
  - vm_compute. reflexivity.
  - vm_compute. reflexivity.
  - reflexivity.
  - exists s'. repeat split; assumption.
Defined.

Lemma runtime_failure_is_final_witness :
  exists s',
    step (M := ieee_math) loading_wasm_state (wasm_rejected EmptyString)
    = Some s'
    /\ status s' = "error"
    /\ errorMessage s' = "初始化失败".
Proof.
  destruct (runtime_failure_is_final (M := ieee_math) loading_wasm_state
              EmptyString)
    as (s' & H1 & H2 & H3 & _); try (vm_compute; reflexivity).
  exists s'. repeat split; assumption.
Defined.

Example unmount_streaming :
  exists s',
    step (M := ieee_math) streaming_state unmount = Some s'
    /\ endedTracks s' = []
    /\ frames s' = []
    /\ current_stream streaming_state = Some sample_stream.
Proof.
  eexists. split; [vm_compute; reflexivity|]. repeat split.
Qed.

Lemma panel_after_load_success_witness :
  exists s',
    step (M := ieee_math) timed_out_state (model_resolved 1 7%nat) = Some s'
    /\ status s' = "requesting_camera"
    /\ manual_upload_shown s' = true.
Proof.
  destruct (panel_after_load_success (M := ieee_math) timed_out_state
              (model_resolved 1 7%nat) (initVision_await_model 1) 7%nat)
    as (s' & H1 & H2 & H3 & _); try (vm_compute; reflexivity).
  { vm_compute. left. reflexivity. }
  exists s'. repeat split; assumption.
Defined.
